(** * DPH5005 serial interface: a shallow embedding of
      [dph5005/DPH5005_Interface.py] and the properties of its frame codec,
      CRC16 engine, transport session and response parser. *)

From Stdlib Require Import ZArith Lia.
From Stdlib Require Import Init.Byte Strings.Byte.
From stdpp Require Import base option list strings gmap.

Local Open Scope Z_scope.

(** ** Bytes *)

(** A Python [bytes] object is a list of bytes; integers are unbounded. *)
Abbreviation byte := Corelib.Init.Byte.byte.
Abbreviation bytes := (list byte).

#[global] Instance byte_eq_dec : EqDecision byte := Byte.byte_eq_dec.

Definition Z_of_byte (b : byte) : Z := Z.of_N (Byte.to_N b).

(** The byte holding the low eight bits of [z]. *)
Definition to_byte (z : Z) : byte :=
  default x00 (Byte.of_N (Z.to_N (z mod 256))).

(** ** Exceptions *)

(** The exceptions the module can raise; [struct_error] is [struct.error],
    and [OSError] is an [OSError] that is not a [serial.SerialException]. *)
Inductive exn : Type :=
  | KeyError
  | IndexError
  | TypeError
  | AttributeError
  | ValueError
  | struct_error
  | OSError
  | SerialException.

Inductive result (A : Type) : Type :=
  | Ok (a : A)
  | Raise (e : exn).
Arguments Ok {A} a.
Arguments Raise {A} e.

#[global] Instance result_ret : MRet result := fun A a => Ok a.
#[global] Instance result_bind : MBind result := fun A B f m =>
  match m with
  | Ok a => f a
  | Raise e => Raise e
  end.

(** ** Python slices on sequences *)

(** [x[:-2]] *)
Definition drop_last2 {A} (x : list A) : list A := take (length x - 2)%nat x.
(** [x[-2:]] *)
Definition last2 {A} (x : list A) : list A := drop (length x - 2)%nat x.
(** [x[i:j]] for [0 <= i <= j] *)
Definition slice {A} (i j : nat) (x : list A) : list A := take (j - i)%nat (drop i x).

(** ** The [struct] packers (lines 8-10) *)

(** [struct.Struct(">B")] *)
Module byte_packer.
Definition pack (v : Z) : result bytes :=
  if decide (0 <= v < 256) then Ok [to_byte v] else Raise struct_error.
Definition unpack (b : bytes) : result Z :=
  match b with
  | [b0] => Ok (Z_of_byte b0)
  | _ => Raise struct_error
  end.
End byte_packer.

(** [struct.Struct(">H")]: big-endian unsigned 16-bit *)
Module data_packer.
Definition pack (v : Z) : result bytes :=
  if decide (0 <= v < 65536) then Ok [to_byte (v / 256); to_byte v]
  else Raise struct_error.
Definition unpack (b : bytes) : result Z :=
  match b with
  | [hi; lo] => Ok (Z_of_byte hi * 256 + Z_of_byte lo)
  | _ => Raise struct_error
  end.
End data_packer.

(** [struct.Struct("<H")]: little-endian unsigned 16-bit *)
Module crc_packer.
Definition pack (v : Z) : result bytes :=
  if decide (0 <= v < 65536) then Ok [to_byte v; to_byte (v / 256)]
  else Raise struct_error.
End crc_packer.

(** ** Dictionaries iterated in insertion order *)

(** [function] and [self.registers] are both indexed by key and walked with
    [.items()], so they are kept as association lists in literal order. *)
Fixpoint getitem {V} (d : list (string * V)) (k : string) : result V :=
  match d with
  | [] => Raise KeyError
  | (k', v) :: d' => if decide (k' = k) then Ok v else getitem d' k
  end.

(** [for item in d.items(): if x == item[1]: x = item[0]; break]: the first
    key whose value is [x], if any. *)
Fixpoint key_of_value (d : list (string * bytes)) (x : bytes) : option string :=
  match d with
  | [] => None
  | (k, v) :: d' => if decide (x = v) then Some k else key_of_value d' x
  end.

(** [function] (line 6) *)
Definition function : list (string * bytes) :=
  [ ("read", [x03]); ("single_write", [x06]); ("multiple_write", [x10]) ].

(** [self.registers] (lines 20-34) *)
Definition registers : list (string * bytes) :=
  [ ("V-SET", [x00; x00]);
    ("I-SET", [x00; x01]);
    ("V-OUT", [x00; x02]);
    ("I-OUT", [x00; x03]);
    ("POWER", [x00; x04]);
    ("V-IN", [x00; x05]);
    ("LOCK", [x00; x06]);
    ("PROTECT", [x00; x07]);
    ("CV/CC", [x00; x08]);
    ("ON/OFF", [x00; x09]);
    ("B-LED", [x00; x0a]);
    ("MODEL", [x00; x0b]);
    ("VERSION", [x00; x0c]) ].

(** [self.register_order] (lines 36-50) *)
Definition register_order : list string :=
  [ "V-SET"; "I-SET"; "V-OUT"; "I-OUT"; "POWER"; "V-IN"; "LOCK"; "PROTECT";
    "CV/CC"; "ON/OFF"; "B-LED"; "MODEL"; "VERSION" ].

(** [list.index] on a list of names. *)
Fixpoint index_from (l : list string) (x : string) (i : nat) : result nat :=
  match l with
  | [] => Raise ValueError
  | y :: l' => if decide (y = x) then Ok i else index_from l' x (S i)
  end.
Definition index (l : list string) (x : string) : result nat := index_from l x 0.

(** ** Limits and precision (lines 52-76) *)

(** [self.limits] (lines 52-59): the inclusive bounds of the settings that
    have them, by name. *)
Definition limits : list (string * (Z * Z)) :=
  [ ("ADDRESS", (1, 255));
    ("V-SET", (0, 50));
    ("I-SET", (0, 5));
    ("LOCK", (0, 1));
    ("ON/OFF", (0, 1));
    ("B-LED", (0, 5)) ].

(** [self.precision] (lines 61-76): the number of decimals of each value. *)
Definition precision : list (string * Z) :=
  [ ("ADDRESS", 0);
    ("V-SET", 2);
    ("I-SET", 3);
    ("V-OUT", 2);
    ("I-OUT", 3);
    ("POWER", 2);
    ("V-IN", 2);
    ("LOCK", 0);
    ("PROTECT", 0);
    ("CV/CC", 0);
    ("ON/OFF", 0);
    ("B-LED", 0);
    ("MODEL", 0);
    ("VERSION", 0) ].

(** ** CRC16 engine (lines 79-91) *)

(** One pass of the inner loop body. *)
Definition crc_step (crc : Z) : Z :=
  if decide (Z.land crc 0x0001 = 0x0001)
  then Z.lxor (Z.shiftr crc 1) 0xA001
  else Z.shiftr crc 1.

(** The outer loop body: [crc ^= b] followed by [for i in range(8)]. *)
Definition crc_byte (crc : Z) (b : byte) : Z :=
  Nat.iter 8 crc_step (Z.lxor crc (Z_of_byte b)).

Definition crc_acc (message : bytes) : Z := fold_left crc_byte message 0xFFFF.

Definition get_crc (message : bytes) : result bytes :=
  crc_packer.pack (crc_acc message).

(** The algorithm as the specification words it: a 16-bit accumulator seeded
    with 0xFFFF; each byte is XOR-ed into the low byte, then eight rounds of
    shift right, with 0xA001 XOR-ed in when the bit shifted out was set. *)
Module Crc16Spec.
Definition xor_low_byte (acc : Z) (b : byte) : Z :=
  Z.lor (Z.land acc 0xFF00) (Z.lxor (Z.land acc 0x00FF) (Z_of_byte b)).
Definition round (acc : Z) : Z :=
  if Z.testbit acc 0 then Z.lxor (Z.shiftr acc 1) 0xA001 else Z.shiftr acc 1.
Definition absorb (acc : Z) (b : byte) : Z :=
  Nat.iter 8 round (xor_low_byte acc b).
Definition accumulate (message : bytes) : Z := fold_left absorb message 0xFFFF.
End Crc16Spec.

(** ** Arguments of [send_command] and Python values *)

(** [registers]: a register name, or the pair (starting register, count)
    given as a tuple. *)
Inductive registers_arg : Type :=
  | RegName (name : string)
  | RegSpan (start : string) (count : Z).

(** [data]: [None], one integer, or a sequence of integers. *)
Inductive data_arg : Type :=
  | DataNone
  | DataInt (v : Z)
  | DataSeq (vs : list Z).

(** The values stored in the dictionaries that [send_command] returns. *)
Inductive pyval : Type :=
  | VInt (z : Z)
  | VStr (s : string)
  | VBytes (b : bytes)
  | VInts (l : list Z)
  | VStrs (l : list string).

(** [registers[0]] when [registers] is a tuple, [registers] otherwise
    (lines 139-142). *)
Definition registers_key (regs : registers_arg) : string :=
  match regs with
  | RegSpan start _ => start
  | RegName name => name
  end.

(** [registers[1]] as the integer handed to a packer.  On a string it is a
    character (or out of range), which every packer refuses. *)
Definition registers_1 (regs : registers_arg) : result Z :=
  match regs with
  | RegSpan _ count => Ok count
  | RegName name =>
      if decide (String.length name < 2)%nat then Raise IndexError
      else Raise struct_error
  end.

(** [self.registers[registers]] (line 150): a tuple is not a key. *)
Definition registers_self (regs : registers_arg) : result bytes :=
  match regs with
  | RegName name => getitem registers name
  | RegSpan _ _ => Raise KeyError
  end.

(** [data_packer.pack(data)] *)
Definition pack_data (data : data_arg) : result bytes :=
  match data with
  | DataInt v => data_packer.pack v
  | _ => Raise struct_error
  end.

(** [data[i]] *)
Definition data_getitem (data : data_arg) (i : nat) : result Z :=
  match data with
  | DataSeq vs =>
      match vs !! i with
      | Some v => Ok v
      | None => Raise IndexError
      end
  | _ => Raise TypeError
  end.

(** [for i in range(i, i + k): command += data_packer.pack(data[i])]
    (lines 155-156). *)
Fixpoint pack_items (data : data_arg) (i k : nat) (command : bytes) : result bytes :=
  match k with
  | O => Ok command
  | S k' =>
      v ← data_getitem data i;
      p ← data_packer.pack v;
      pack_items data (S i) k' (command ++ p)
  end.

(** ** Frame codec: the first half of [send_command] (lines 136-160) *)

Definition assemble (address : Z) (mode : string) (regs : registers_arg)
    (data : data_arg) : result (bytes * bytes) :=
  command ← byte_packer.pack address;
  f ← getitem function mode;
  let command := command ++ f in
  let expected_response := command in
  r ← getitem registers (registers_key regs);
  let command := command ++ r in
  '(command, expected_response) ←
    (if decide (mode = "read") then
       n ← registers_1 regs;
       p ← data_packer.pack n;
       let command := command ++ p in
       q ← byte_packer.pack (n * 2);
       let expected_response := expected_response ++ q in
       Ok (command,
           Nat.iter (Z.to_nat n) (fun e => e ++ [x00; x00]) expected_response)
     else if decide (mode = "single_write") then
       p ← pack_data data;
       let command := command ++ p in
       r' ← registers_self regs;
       let expected_response := expected_response ++ r' in
       p' ← pack_data data;
       Ok (command, expected_response ++ p')
     else if decide (mode = "multiple_write") then
       n ← registers_1 regs;
       p ← data_packer.pack n;
       let command := command ++ p in
       q ← byte_packer.pack (2 * n);
       let command := command ++ q in
       command ← pack_items data 0 (Z.to_nat n) command;
       r' ← getitem registers (registers_key regs);
       let expected_response := expected_response ++ r' in
       p' ← data_packer.pack n;
       Ok (command, expected_response ++ p')
     else Ok (command, expected_response));
  c ← get_crc command;
  e ← get_crc expected_response;
  Ok (command ++ c, expected_response ++ e).

(** ** Response parser (lines 171-236) *)

(** [for i in range(0, k): data.append(data_packer.unpack(buf[:2])[0]);
    buf = buf[2:]] (lines 205-207 and 230-232). *)
Fixpoint unpack_items (k : nat) (buf : bytes) (data : list Z) : result (list Z) :=
  match k with
  | O => Ok data
  | S k' =>
      v ← data_packer.unpack (take 2 buf);
      unpack_items k' (drop 2 buf) (data ++ [v])
  end.

(** [self.register_order.index(starting_register)]: a register address that
    the catalog does not name is still a [bytes] object, which the list of
    names does not contain. *)
Definition order_index (starting_register : option string) : result nat :=
  match starting_register with
  | Some name => index register_order name
  | None => Raise ValueError
  end.

Definition __parse_response (command response : bytes) : result (gmap string pyval) :=
  let parsed_data : gmap string pyval := ∅ in
  address ← byte_packer.unpack (take 1 response);
  let parsed_data := <["address" := VInt address]> parsed_data in
  let mode_bytes := slice 1 2 response in
  let mode := key_of_value function mode_bytes in
  let parsed_data :=
    <["mode" := match mode with Some m => VStr m | None => VBytes mode_bytes end]>
      parsed_data in
  let response := drop_last2 response in
  let response := drop 2 response in
  if decide (mode = Some "read") then
    let starting_register := key_of_value registers (slice 2 4 command) in
    b ← byte_packer.unpack (take 1 response);
    let number_of_registers := Z.to_nat (b `div` 2) in
    let response := drop 1 response in
    starting_index ← order_index starting_register;
    let parsed_data :=
      <["registers" :=
          VStrs (slice starting_index (starting_index + number_of_registers)
                   register_order)]> parsed_data in
    data ← unpack_items number_of_registers response [];
    Ok (<["data" := VInts data]> parsed_data)
  else if decide (mode = Some "single_write") then
    let register := take 2 response in
    v ← data_packer.unpack (drop 2 response);
    let parsed_data := <["data" := VInt v]> parsed_data in
    let register :=
      match key_of_value registers register with
      | Some name => VStr name
      | None => VBytes register
      end in
    Ok (<["registers" := register]> parsed_data)
  else if decide (mode = Some "multiple_write") then
    let starting_register := take 2 response in
    n ← data_packer.unpack (drop 2 response);
    let number_of_registers := Z.to_nat n in
    let starting_register := key_of_value registers starting_register in
    starting_index ← order_index starting_register;
    let parsed_data :=
      <["registers" :=
          VStrs (slice starting_index (starting_index + number_of_registers)
                   register_order)]> parsed_data in
    let command := drop_last2 command in
    let command := drop 7 command in
    data ← unpack_items number_of_registers command [];
    Ok (<["data" := VInts data]> parsed_data)
  else Ok ∅.

(** The CRC test on the response (line 166). *)
Definition crc_matches (response : bytes) : result bool :=
  crc ← get_crc (drop_last2 response);
  Ok (bool_decide (last2 response = crc)).

(** The second half of [send_command] (lines 165-169), parameterised by the
    parser it hands a valid response to; the source hands it to
    [self.__parse_response]. *)
Definition validate_with (parse : bytes -> bytes -> result (gmap string pyval))
    (mode : string) (command response : bytes)
    : result (bool * gmap string pyval) :=
  ok ← crc_matches response;
  if ok : bool then
    parsed ← parse command response;
    Ok (true, parsed)
  else Ok (false, {["mode" := VStr mode]}).

Definition validate := validate_with __parse_response.

(** ** Transport session (lines 93-123) *)

(** What the module asks of [serial.Serial]: a world that the calls act on
    and the port objects it hands out.  Opening, writing and reading answer
    [Raise e] when the library raises [e]; the module has a handler for
    [serial.SerialException] around the open only, and none around the write
    and the read.  Probing answers [None] when the library raises [OSError]
    or [serial.SerialException], the two classes [is_port_alive] catches. *)
Class Serial (World Port : Type) : Type := {
  serial_Serial : string -> Z -> World -> result Port * World;
  serial_in_waiting : Port -> World -> option nat * World;
  serial_close : Port -> World -> World;
  serial_write : Port -> bytes -> World -> result unit * World;
  serial_read : Port -> nat -> World -> result bytes * World
}.

(** The calls made on the serial library, in order. *)
Inductive event (Port : Type) : Type :=
  | EvOpen (name : string) (timeout : Z)
  | EvProbe (p : Port)
  | EvClose (p : Port)
  | EvWrite (p : Port) (command : bytes)
  | EvRead (p : Port) (byte_length : nat).
Arguments EvOpen {Port} name timeout.
Arguments EvProbe {Port} p.
Arguments EvClose {Port} p.
Arguments EvWrite {Port} p command.
Arguments EvRead {Port} p byte_length.

(** A [DPH5005] object together with the world it talks to: [self.port] is
    [None] or an open port.  [self.cmd_lock] is always free between the calls
    of one thread and is not represented. *)
Record session (World Port : Type) : Type := Session {
  world : World;
  port : option Port;
  trace : list (event Port)
}.
Arguments Session {World Port} world port trace.
Arguments world {World Port} s.
Arguments port {World Port} s.
Arguments trace {World Port} s.

Section Session.
Context {World Port : Type} `{!Serial World Port}.

(** Methods run on a session and return a value or raise. *)
Definition M (A : Type) : Type :=
  session World Port -> result A * session World Port.

#[global] Instance M_ret : MRet M := fun A a s => (Ok a, s).
#[global] Instance M_bind : MBind M := fun A B f m s =>
  match m s with
  | (Ok a, s') => f a s'
  | (Raise e, s') => (Raise e, s')
  end.

Definition lift {A} (r : result A) : M A := fun s => (r, s).
Definition get_port : M (option Port) := fun s => (Ok (port s), s).
Definition set_port (p : option Port) : M unit := fun s =>
  (Ok (), Session (world s) p (trace s)).

(** [try: body] / [except <classes>: handler]: an exception of [body] that
    [catches] accepts runs [handler] on the state [body] left behind; any
    other exception goes on. *)
Definition try_except {A} (body : M A) (catches : exn -> bool) (handler : M A)
    : M A := fun s =>
  match body s with
  | (Ok a, s') => (Ok a, s')
  | (Raise e, s') => if catches e then handler s' else (Raise e, s')
  end.

(** [except serial.SerialException] *)
Definition is_SerialException (e : exn) : bool :=
  match e with
  | SerialException => true
  | _ => false
  end.

Definition call_Serial (name : string) (timeout : Z) : M Port := fun s =>
  let '(r, w) := serial_Serial name timeout (world s) in
  (r, Session w (port s) (trace s ++ [EvOpen name timeout])).
Definition call_in_waiting (p : Port) : M (option nat) := fun s =>
  let '(r, w) := serial_in_waiting p (world s) in
  (Ok r, Session w (port s) (trace s ++ [EvProbe p])).
Definition call_close (p : Port) : M unit := fun s =>
  (Ok (), Session (serial_close p (world s)) (port s) (trace s ++ [EvClose p])).
Definition call_write (p : Port) (command : bytes) : M unit := fun s =>
  let '(r, w) := serial_write p command (world s) in
  (r, Session w (port s) (trace s ++ [EvWrite p command])).
Definition call_read (p : Port) (byte_length : nat) : M bytes := fun s =>
  let '(r, w) := serial_read p byte_length (world s) in
  (r, Session w (port s) (trace s ++ [EvRead p byte_length])).

(** lines 113-116 *)
Definition disconnect_port : M unit :=
  p ← get_port;
  match p with
  | Some p => call_close p;; set_port None
  | None => mret ()
  end.

(** lines 94-100; [return True] follows the [try] statement and is reached
    exactly when its body did not raise. *)
Definition connect_port (port_name : string) : M bool :=
  disconnect_port;;
  try_except
    (p ← call_Serial port_name 1;
     set_port (Some p);;
     mret true)
    is_SerialException
    (mret false).

(** lines 102-110 *)
Definition is_port_alive : M bool :=
  p ← get_port;
  match p with
  | None => mret false
  | Some p =>
      r ← call_in_waiting p;
      match r with
      | None => disconnect_port;; mret false
      | Some _ => mret true
      end
  end.

(** lines 118-123 *)
Definition __send (command : bytes) (byte_length : nat) : M bytes :=
  alive ← is_port_alive;
  if alive : bool then
    p ← get_port;
    match p with
    | Some p => call_write p command;; call_read p byte_length
    | None => lift (Raise AttributeError)
    end
  else mret [x00].

(** lines 134-169: assemble the frames (136-160), send (163), validate and
    parse (166-169) *)
Definition send_command_with
    (parse : bytes -> bytes -> result (gmap string pyval))
    (address : Z) (mode : string) (regs : registers_arg) (data : data_arg)
    : M (bool * gmap string pyval) :=
  '(command, expected_response) ← lift (assemble address mode regs data);
  response ← __send command (length expected_response);
  lift (validate_with parse mode command response).

Definition send_command := send_command_with __parse_response.

(** Successive [__send] calls, with the replies collected. *)
Fixpoint send_all (calls : list (bytes * nat)) : M (list bytes) :=
  match calls with
  | [] => mret []
  | (command, byte_length) :: calls' =>
      r ← __send command byte_length;
      rs ← send_all calls';
      mret (r :: rs)
  end.
End Session.

(** ** Vocabulary of the codec statements *)

(** The bytes of a sequence of 16-bit values, each big-endian. *)
Fixpoint pack_words (vs : list Z) : bytes :=
  match vs with
  | [] => []
  | v :: vs' => [to_byte (v / 256); to_byte v] ++ pack_words vs'
  end.

(** The 16-bit big-endian values held by a payload, pair by pair. *)
Fixpoint words_of (payload : bytes) : list Z :=
  match payload with
  | hi :: lo :: payload' => (Z_of_byte hi * 256 + Z_of_byte lo) :: words_of payload'
  | _ => []
  end.

(** The payload of a multiple_write command frame: [command[7:-2]]. *)
Definition command_payload (command : bytes) : bytes := drop 7 (drop_last2 command).

(** The frame with which the device confirms a multiple write: address,
    function code 0x10, starting register address, register count, CRC. *)
Definition multiple_write_reply (a : byte) (addr : bytes) (n : Z) (crc : bytes)
    : bytes :=
  [a; x10] ++ addr ++ [to_byte (n / 256); to_byte n] ++ crc.

(** ** Vocabulary of the round-trip statement *)

(** The commands the module is meant to receive: a catalogued register (or a
    span that stays inside the catalog), 16-bit values, and for
    multiple_write as many values as registers. *)
Inductive valid_command : string -> registers_arg -> data_arg -> Prop :=
  | valid_read (start : string) (i : nat) (n : Z) (data : data_arg) :
      index register_order start = Ok i ->
      0 <= n ->
      (i + Z.to_nat n <= 13)%nat ->
      valid_command "read" (RegSpan start n) data
  | valid_single_write (name : string) (i : nat) (v : Z) :
      index register_order name = Ok i ->
      0 <= v < 65536 ->
      valid_command "single_write" (RegName name) (DataInt v)
  | valid_multiple_write (start : string) (i : nat) (vs : list Z) :
      index register_order start = Ok i ->
      (i + length vs <= 13)%nat ->
      Forall (fun v => 0 <= v < 65536) vs ->
      valid_command "multiple_write" (RegSpan start (Z.of_nat (length vs)))
        (DataSeq vs).

(** A response of the shape derived beside the command: for the two writes
    the expected bytes themselves; for read the same length and the same
    address, function code and byte count, with a valid CRC, the register
    values being the device's to choose. *)
Definition matches_expected (mode : string) (expected_response response : bytes)
    : Prop :=
  if decide (mode = "read")
  then length response = length expected_response /\
       take 3 response = take 3 expected_response /\
       crc_matches response = Ok true
  else response = expected_response.

(** The registers a command names: the register itself, or the [count]
    names of [register_order] from the starting register on. *)
Definition named_registers (regs : registers_arg) : option pyval :=
  match regs with
  | RegName name => Some (VStr name)
  | RegSpan start count =>
      match index register_order start with
      | Ok i => Some (VStrs (take (Z.to_nat count) (drop i register_order)))
      | Raise _ => None
      end
  end.

(** The data a command carries, as a value; [None] carries none. *)
Definition data_value (data : data_arg) : option pyval :=
  match data with
  | DataNone => None
  | DataInt v => Some (VInt v)
  | DataSeq vs => Some (VInts vs)
  end.

(** The register values a read response carries: the words between its
    3-byte header and its CRC. *)
Definition response_values (response : bytes) : list Z :=
  words_of (drop 3 (drop_last2 response)).

(** The data a round trip yields: the command's own for the writes, the
    response's register values for a read. *)
Definition round_trip_data (mode : string) (data : data_arg) (response : bytes)
    : option pyval :=
  if decide (mode = "read") then Some (VInts (response_values response))
  else data_value data.

(** ** A bench device for the examples *)

(** A world with one port, [/dev/tnt0], that can be opened.  The device
    behind it answers every command with [reply]; probing the port faults
    once the device is [unplugged].  Any other name fails to open with
    [serial.SerialException], except that a name with an embedded NUL is
    refused with [ValueError] before any port is tried. *)
Record bench : Type := Bench { reply : bytes; unplugged : bool }.

Fixpoint has_nul (name : string) : bool :=
  match name with
  | EmptyString => false
  | String c name' => if decide (c = Ascii.zero) then true else has_nul name'
  end.

#[global] Instance bench_serial : Serial bench unit := {
  serial_Serial name timeout w :=
    (if has_nul name then Raise ValueError
     else if decide (name = "/dev/tnt0") then Ok () else Raise SerialException, w);
  serial_in_waiting p w := (if unplugged w then None else Some 0%nat, w);
  serial_close p w := w;
  serial_write p command w := (Ok (), w);
  serial_read p byte_length w := (Ok (take byte_length (reply w)), w)
}.

(** The port name ["\x00"]. *)
Definition nul_name : string := String Ascii.zero EmptyString.

(** A device that has hung up: its port still opens and answers the probe
    and writes go through, but every read faults. *)
Inductive hung_up : Type := HungUp.

#[global] Instance hung_up_serial : Serial hung_up unit := {
  serial_Serial name timeout w := (Ok (), w);
  serial_in_waiting p w := (Some 0%nat, w);
  serial_close p w := w;
  serial_write p command w := (Ok (), w);
  serial_read p byte_length w := (Raise SerialException, w)
}.

Definition hung_up_session : session hung_up unit := Session HungUp (Some ()) [].

(** A session connected to a bench device with the given reply, and one
    whose device has been unplugged. *)
Definition plugged_session (reply : bytes) : session bench unit :=
  Session (Bench reply false) (Some ()) [].
Definition unplugged_session : session bench unit :=
  Session (Bench [] true) (Some ()) [].

(** A session that holds no port. *)
Definition idle_session : session bench unit := Session (Bench [] false) None [].

(** * Properties *)

(** ** Bytes and packers *)

Lemma Z_of_byte_range b : 0 <= Z_of_byte b < 256.
Proof.
  unfold Z_of_byte. pose proof (Byte.to_N_bounded b). lia.
Qed.

Lemma Z_of_to_byte z : Z_of_byte (to_byte z) = z mod 256.
Proof.
  unfold Z_of_byte, to_byte.
  pose proof (Z.mod_pos_bound z 256 eq_refl) as Hr.
  destruct (Byte.of_N (Z.to_N (z mod 256))) as [b|] eqn:E.
  - apply Byte.to_of_N in E. simpl. rewrite E. lia.
  - apply Byte.of_N_None_iff in E. lia.
Qed.

Lemma to_byte_of_byte b : to_byte (Z_of_byte b) = b.
Proof.
  unfold to_byte. pose proof (Z_of_byte_range b).
  rewrite Z.mod_small by lia. unfold Z_of_byte.
  rewrite N2Z.id, Byte.of_to_N. reflexivity.
Qed.

Lemma Z_of_byte_inj b1 b2 : Z_of_byte b1 = Z_of_byte b2 -> b1 = b2.
Proof.
  intros E. rewrite <- (to_byte_of_byte b1), <- (to_byte_of_byte b2).
  now rewrite E.
Qed.

Lemma byte_unpack_pack v :
  0 <= v < 256 -> byte_packer.pack v = Ok [to_byte v] /\ Z_of_byte (to_byte v) = v.
Proof.
  intros Hv. unfold byte_packer.pack. rewrite decide_True by lia.
  split; [reflexivity|]. rewrite Z_of_to_byte. apply Z.mod_small. lia.
Qed.

Lemma data_pack_ok v :
  0 <= v < 65536 -> data_packer.pack v = Ok [to_byte (v / 256); to_byte v].
Proof. intros Hv. unfold data_packer.pack. now rewrite decide_True by lia. Qed.

Lemma data_unpack_bytes v :
  0 <= v < 65536 ->
  data_packer.unpack [to_byte (v / 256); to_byte v] = Ok v.
Proof.
  intros Hv. simpl. rewrite !Z_of_to_byte. f_equal.
  rewrite (Z.mod_small (v / 256)) by (split; [apply Z.div_pos | apply Z.div_lt_upper_bound]; lia).
  pose proof (Z.div_mod v 256). lia.
Qed.

(** ** CRC16 engine *)

Lemma fold_left_cons {A B} (f : A -> B -> A) (x : B) (l : list B) (a : A) :
  fold_left f (x :: l) a = fold_left f l (f a x).
Proof. reflexivity. Qed.

Lemma crc_step_range crc : 0 <= crc < 65536 -> 0 <= crc_step crc < 65536.
Proof.
  intros Hc. unfold crc_step.
  assert (Hs : 0 <= Z.shiftr crc 1 < 2 ^ 16).
  { rewrite Z.shiftr_div_pow2 by lia. change (2 ^ 1) with 2.
    split; [apply Z.div_pos; lia | apply Z.div_lt_upper_bound; lia]. }
  destruct (decide _); [|lia].
  split.
  - apply Z.lxor_nonneg. lia.
  - destruct (Z.eq_dec (Z.lxor (Z.shiftr crc 1) 40961) 0) as [->|Hne]; [lia|].
    assert (0 <= Z.lxor (Z.shiftr crc 1) 40961) by (apply Z.lxor_nonneg; lia).
    apply (Z.log2_lt_pow2 _ 16); [lia|].
    eapply Z.le_lt_trans; [apply Z.log2_lxor; lia|].
    apply Z.max_lub_lt.
    + destruct (Z.eq_dec (Z.shiftr crc 1) 0) as [->|]; [reflexivity|].
      apply Z.log2_lt_pow2; lia.
    + reflexivity.
Qed.

Lemma lxor_byte_range crc b :
  0 <= crc < 65536 -> 0 <= Z.lxor crc (Z_of_byte b) < 65536.
Proof.
  intros Hc. pose proof (Z_of_byte_range b) as Hb.
  split; [apply Z.lxor_nonneg; lia|].
  destruct (Z.eq_dec (Z.lxor crc (Z_of_byte b)) 0) as [->|Hne]; [lia|].
  assert (0 <= Z.lxor crc (Z_of_byte b)) by (apply Z.lxor_nonneg; lia).
  apply (Z.log2_lt_pow2 _ 16); [lia|].
  eapply Z.le_lt_trans; [apply Z.log2_lxor; lia|].
  apply Z.max_lub_lt.
  - destruct (Z.eq_dec crc 0) as [->|]; [reflexivity|].
    apply Z.log2_lt_pow2; lia.
  - destruct (Z.eq_dec (Z_of_byte b) 0) as [->|]; [reflexivity|].
    apply Z.log2_lt_pow2; lia.
Qed.

Lemma iter_crc_step_range n crc :
  0 <= crc < 65536 -> 0 <= Nat.iter n crc_step crc < 65536.
Proof.
  intros Hc. induction n as [|n IH]; [exact Hc|].
  rewrite Nat.iter_succ. now apply crc_step_range.
Qed.

Lemma crc_byte_range crc b : 0 <= crc < 65536 -> 0 <= crc_byte crc b < 65536.
Proof.
  intros Hc. unfold crc_byte. apply iter_crc_step_range. now apply lxor_byte_range.
Qed.

Lemma fold_crc_byte_range message crc :
  0 <= crc < 65536 -> 0 <= fold_left crc_byte message crc < 65536.
Proof.
  revert crc. induction message as [|b m IH]; intros crc Hc; [exact Hc|].
  rewrite fold_left_cons. apply IH. apply crc_byte_range. exact Hc.
Qed.

Lemma crc_acc_range message : 0 <= crc_acc message < 65536.
Proof. unfold crc_acc. apply fold_crc_byte_range. lia. Qed.

(** [get_crc] never raises and always yields two bytes. *)
Lemma get_crc_ok message :
  get_crc message =
    Ok [to_byte (crc_acc message); to_byte (crc_acc message / 256)].
Proof.
  unfold get_crc, crc_packer.pack.
  now rewrite decide_True by apply crc_acc_range.
Qed.

Lemma crc_step_round crc : crc_step crc = Crc16Spec.round crc.
Proof.
  unfold crc_step, Crc16Spec.round.
  rewrite (Z.land_ones crc 1 ltac:(lia) : Z.land crc 1 = crc mod 2).
  rewrite Z.bit0_eqb.
  destruct (decide (crc mod 2 = 1)) as [E|E].
  - now rewrite E.
  - apply Z.eqb_neq in E. now rewrite E.
Qed.

Lemma testbit_byte_high b n : 8 <= n -> Z.testbit (Z_of_byte b) n = false.
Proof.
  intros Hn. pose proof (Z_of_byte_range b) as Hb.
  destruct (Z.eq_dec (Z_of_byte b) 0) as [->|Hne]; [apply Z.bits_0|].
  apply Z.bits_above_log2; [lia|].
  assert (Z.log2 (Z_of_byte b) < 8) by (apply Z.log2_lt_pow2; lia). lia.
Qed.

Lemma testbit_16_high crc n : 0 <= crc < 65536 -> 16 <= n -> Z.testbit crc n = false.
Proof.
  intros Hc Hn.
  destruct (Z.eq_dec crc 0) as [->|Hne]; [apply Z.bits_0|].
  apply Z.bits_above_log2; [lia|].
  assert (Z.log2 crc < 16) by (apply Z.log2_lt_pow2; lia). lia.
Qed.

(** On a 16-bit accumulator [crc ^= b] only touches the low byte. *)
Lemma lxor_low_byte crc b :
  0 <= crc < 65536 -> Z.lxor crc (Z_of_byte b) = Crc16Spec.xor_low_byte crc b.
Proof.
  intros Hc. unfold Crc16Spec.xor_low_byte.
  apply Z.bits_inj'. intros n Hn.
  rewrite Z.lor_spec, !Z.lxor_spec, !Z.land_spec.
  change 65280 with (Z.shiftl (Z.ones 8) 8). change 255 with (Z.ones 8).
  rewrite Z.shiftl_spec by lia.
  destruct (Z_lt_le_dec n 8) as [Hlt|Hge].
  - rewrite (Z.testbit_neg_r _ (n - 8)) by lia.
    rewrite Z.ones_spec_low by lia.
    now rewrite andb_false_r, andb_true_r.
  - rewrite (Z.ones_spec_high 8 n) by lia.
    rewrite testbit_byte_high by lia.
    rewrite andb_false_r, !xorb_false_r, orb_false_r.
    destruct (Z_lt_le_dec n 16) as [Hlt|Hge'].
    + rewrite Z.ones_spec_low by lia. now rewrite andb_true_r.
    + rewrite (testbit_16_high crc n) by lia. reflexivity.
Qed.

Lemma iter_crc_step_round n crc :
  Nat.iter n crc_step crc = Nat.iter n Crc16Spec.round crc.
Proof.
  induction n as [|n IH]; [reflexivity|].
  now rewrite !Nat.iter_succ, IH, crc_step_round.
Qed.

Lemma fold_crc_byte_absorb message crc :
  0 <= crc < 65536 ->
  fold_left crc_byte message crc = fold_left Crc16Spec.absorb message crc.
Proof.
  revert crc. induction message as [|b m IH]; intros crc Hc; [reflexivity|].
  rewrite !fold_left_cons.
  assert (E : crc_byte crc b = Crc16Spec.absorb crc b).
  { unfold crc_byte, Crc16Spec.absorb.
    rewrite iter_crc_step_round, lxor_low_byte by exact Hc. reflexivity. }
  rewrite <- E. apply IH. apply crc_byte_range. exact Hc.
Qed.

(** C2: [get_crc] never raises; it returns exactly two bytes, low byte
    first, of the accumulator that the specified algorithm computes (seed
    0xFFFF, each byte XOR-ed into the low byte, eight shift rounds with
    0xA001), which stays within 16 bits; on the empty message these are the
    two bytes of 0xFFFF, and on the ASCII digits 1 to 9 the Modbus check
    value 0x4B37. *)
Theorem get_crc_modbus (message : bytes) :
  (exists lo hi : byte,
      get_crc message = Ok [lo; hi] /\
      Z_of_byte lo + 256 * Z_of_byte hi = Crc16Spec.accumulate message /\
      0 <= Crc16Spec.accumulate message < 65536) /\
  get_crc [] = Ok [xff; xff] /\
  get_crc [x31; x32; x33; x34; x35; x36; x37; x38; x39] = Ok [x37; x4b].
Proof.
  split; [|split; reflexivity].
  assert (E : crc_acc message = Crc16Spec.accumulate message).
  { unfold crc_acc, Crc16Spec.accumulate. apply fold_crc_byte_absorb. lia. }
  pose proof (crc_acc_range message) as Hr.
  exists (to_byte (crc_acc message)), (to_byte (crc_acc message / 256)).
  split; [apply get_crc_ok|]. rewrite <- E. split; [|exact Hr].
  rewrite !Z_of_to_byte.
  rewrite (Z.mod_small (crc_acc message / 256))
    by (split; [apply Z.div_pos | apply Z.div_lt_upper_bound]; lia).
  pose proof (Z.div_mod (crc_acc message) 256). lia.
Qed.

(** ** Register catalog *)

(** C10: the catalog and the order list hold the same 13 distinct names in
    the same order, and each name's big-endian address is its position in
    the order list, from V-SET at 0 to VERSION at 12. *)
Theorem catalog_matches_order :
  registers.*1 = register_order /\
  length register_order = 13%nat /\
  NoDup register_order /\
  Forall (fun item : string * bytes =>
            exists i : nat,
              index register_order item.1 = Ok i /\
              register_order !! i = Some item.1 /\
              data_packer.unpack item.2 = Ok (Z.of_nat i)) registers /\
  (getitem registers "V-SET" = Ok [x00; x00] /\ index register_order "V-SET" = Ok 0%nat) /\
  (getitem registers "VERSION" = Ok [x00; x0c] /\ index register_order "VERSION" = Ok 12%nat).
Proof.
  split; [reflexivity|]. split; [reflexivity|].
  split; [apply (bool_decide_unpack _); vm_compute; reflexivity|].
  split; [|split; split; reflexivity].
  unfold registers.
  repeat (apply Forall_cons_2; [eexists; repeat split; reflexivity|]).
  apply Forall_nil_2.
Qed.

(** What a successful catalog lookup tells about a name. *)
Lemma getitem_registers_inv name addr :
  getitem registers name = Ok addr ->
  exists i : nat,
    index register_order name = Ok i /\
    (i < 13)%nat /\
    addr = [x00; to_byte (Z.of_nat i)] /\
    register_order !! i = Some name /\
    key_of_value registers addr = Some name.
Proof.
  unfold registers. cbn [getitem].
  repeat (case_decide as Hk;
    [ intros [= <-]; subst name; eexists; split; [reflexivity|];
      split; [lia|repeat split; reflexivity]
    | clear Hk ]).
  discriminate.
Qed.

Lemma bind_Ok {A B} (f : A -> result B) (a : A) : Ok a ≫= f = f a.
Proof. reflexivity. Qed.
Lemma bind_Raise {A B} (f : A -> result B) (e : exn) : Raise e ≫= f = Raise e.
Proof. reflexivity. Qed.
Ltac result_simpl := repeat (rewrite ?bind_Ok, ?bind_Raise; cbv beta iota zeta).

Lemma function_single_write : getitem function "single_write" = Ok [x06].
Proof. reflexivity. Qed.

Lemma get_crc_two message : exists lo hi : byte, get_crc message = Ok [lo; hi].
Proof. eexists _, _. apply get_crc_ok. Qed.

(** ** Frame codec *)

(** C9: for a valid single_write call the expected response built beside the
    command is the command frame itself, byte for byte: header, register
    address, value and CRC, eight bytes in all. *)
Theorem single_write_expected_is_command (address : Z) (name : string)
    (addr : bytes) (value : Z) :
  0 <= address < 256 ->
  getitem registers name = Ok addr ->
  0 <= value < 65536 ->
  exists (frame crc : bytes),
    assemble address "single_write" (RegName name) (DataInt value)
      = Ok (frame, frame) /\
    get_crc ([to_byte address; x06] ++ addr ++ [to_byte (value / 256); to_byte value])
      = Ok crc /\
    frame = [to_byte address; x06] ++ addr
              ++ [to_byte (value / 256); to_byte value] ++ crc /\
    length frame = 8%nat.
Proof.
  intros Ha Hn Hv.
  destruct (getitem_registers_inv _ _ Hn) as (i & _ & _ & -> & _).
  destruct (get_crc_two ([to_byte address; x06] ++ [x00; to_byte (Z.of_nat i)]
                           ++ [to_byte (value / 256); to_byte value]))
    as (lo & hi & Hcrc).
  eexists _, [lo; hi].
  split; [|split; [exact Hcrc|split; reflexivity]].
  unfold assemble.
  rewrite (proj1 (byte_unpack_pack _ Ha)). result_simpl.
  rewrite function_single_write. result_simpl.
  cbn [registers_key registers_self]. rewrite Hn. result_simpl.
  rewrite decide_False by discriminate. rewrite decide_True by reflexivity.
  cbn [pack_data]. rewrite (data_pack_ok _ Hv). result_simpl.
  change ((([to_byte address] ++ [x06]) ++ [x00; to_byte (Z.of_nat i)]) ++
      [to_byte (value / 256); to_byte value]) with ([to_byte address; x06] ++ [x00; to_byte (Z.of_nat i)]
                           ++ [to_byte (value / 256); to_byte value]).
  rewrite Hcrc. result_simpl. reflexivity.
Qed.

(** ** Words and slices *)

Lemma drop_last2_app {A} (l : list A) (a b : A) : drop_last2 (l ++ [a; b]) = l.
Proof.
  unfold drop_last2. rewrite length_app. cbn [length].
  replace (length l + 2 - 2)%nat with (length l) by lia.
  apply take_app_length.
Qed.

Lemma last2_app {A} (l : list A) (a b : A) : last2 (l ++ [a; b]) = [a; b].
Proof.
  unfold last2. rewrite length_app. cbn [length].
  replace (length l + 2 - 2)%nat with (length l) by lia.
  apply drop_app_length.
Qed.

Lemma length_pack_words vs : length (pack_words vs) = (2 * length vs)%nat.
Proof. induction vs as [|v vs IH]; cbn [pack_words length app]; lia. Qed.

Lemma words_of_pack_words vs :
  Forall (fun v => 0 <= v < 65536) vs -> words_of (pack_words vs) = vs.
Proof.
  induction 1 as [|v vs Hv _ IH]; [reflexivity|].
  cbn [pack_words app words_of]. rewrite IH. f_equal.
  pose proof (data_unpack_bytes v Hv) as E. cbn [data_packer.unpack] in E.
  now injection E.
Qed.

(** The decoding loop reads the first [k] words of the buffer, provided the
    buffer holds them. *)
Lemma unpack_items_words (k : nat) (buf : bytes) (data : list Z) :
  (2 * k <= length buf)%nat ->
  unpack_items k buf data = Ok (data ++ take k (words_of buf)).
Proof.
  revert buf data. induction k as [|k IH]; intros buf data Hlen.
  - cbn [unpack_items take]. now rewrite app_nil_r.
  - destruct buf as [|hi [|lo buf]]; cbn [length] in Hlen; try lia.
    cbn [unpack_items words_of].
    change (take 2 (hi :: lo :: buf)) with [hi; lo].
    change (drop 2 (hi :: lo :: buf)) with buf.
    cbn [data_packer.unpack]. result_simpl.
    rewrite IH by lia. rewrite firstn_cons. now rewrite <- app_assoc.
Qed.

(** With too short a buffer the loop raises. *)
Lemma unpack_items_short (k : nat) (buf : bytes) (data : list Z) :
  (length buf < 2 * k)%nat ->
  unpack_items k buf data = Raise struct_error.
Proof.
  revert buf data. induction k as [|k IH]; intros buf data Hlen; [lia|].
  destruct buf as [|hi [|lo buf]]; cbn [length] in Hlen; try reflexivity.
  cbn [unpack_items].
  change (take 2 (hi :: lo :: buf)) with [hi; lo].
  change (drop 2 (hi :: lo :: buf)) with buf.
  cbn [data_packer.unpack]. result_simpl.
  apply IH. lia.
Qed.

(** The encoding loop appends the words of the data sequence. *)
Lemma pack_items_words (pre vs : list Z) (command : bytes) :
  Forall (fun v => 0 <= v < 65536) vs ->
  pack_items (DataSeq (pre ++ vs)) (length pre) (length vs) command
    = Ok (command ++ pack_words vs).
Proof.
  intros Hvs. revert pre command.
  induction Hvs as [|v vs Hv _ IH]; intros pre command.
  - cbn [pack_items length pack_words]. now rewrite app_nil_r.
  - cbn [pack_items length pack_words data_getitem].
    rewrite lookup_app_r by lia. rewrite Nat.sub_diag. cbn [lookup list_lookup].
    result_simpl. rewrite (data_pack_ok v Hv). result_simpl.
    replace (pre ++ v :: vs) with ((pre ++ [v]) ++ vs) by now rewrite <- app_assoc.
    replace (S (length pre)) with (length (pre ++ [v]))
      by (rewrite length_app; cbn [length]; lia).
    rewrite IH. now rewrite <- app_assoc.
Qed.

Lemma iter_placeholders (n : nat) (e : bytes) :
  Nat.iter n (fun e => e ++ [x00; x00]) e = e ++ pack_words (replicate n 0).
Proof.
  revert e. induction n as [|n IH]; intros e.
  - cbn [replicate pack_words]. now rewrite app_nil_r.
  - rewrite Nat.iter_succ_r, IH. cbn [replicate pack_words].
    now rewrite <- app_assoc.
Qed.

(** ** Response parser *)

Lemma key_of_value_function_None (m : byte) :
  m <> x03 -> m <> x06 -> m <> x10 -> key_of_value function [m] = None.
Proof.
  intros H3 H6 H10. unfold function. cbn [key_of_value].
  rewrite !decide_False by congruence. reflexivity.
Qed.

Lemma crc_matches_total response : exists ok : bool, crc_matches response = Ok ok.
Proof.
  unfold crc_matches.
  destruct (get_crc_two (drop_last2 response)) as (lo & hi & ->).
  result_simpl. eauto.
Qed.

(** C8: a response whose function-code byte is none of 0x03, 0x06, 0x10 is
    parsed without raising and yields the empty dictionary, which carries no
    registers and no data; when its CRC is valid [send_command]'s validation
    step hands back exactly that empty dictionary. *)
Theorem unrecognized_function_code (mode : string) (command response : bytes)
    (m : byte) :
  crc_matches response = Ok true ->
  response !! 1%nat = Some m ->
  m <> x03 -> m <> x06 -> m <> x10 ->
  __parse_response command response = Ok ∅ /\
  validate mode command response = Ok (true, ∅) /\
  (∅ : gmap string pyval) !! "registers" = None /\
  (∅ : gmap string pyval) !! "data" = None.
Proof.
  intros Hcrc Hm H3 H6 H10.
  assert (Hparse : __parse_response command response = Ok ∅).
  { destruct response as [|a [|m' rest]]; try discriminate.
    injection Hm as ->.
    unfold __parse_response.
    change (take 1 (a :: m :: rest)) with [a].
    change (slice 1 2 (a :: m :: rest)) with [m].
    cbn [byte_packer.unpack]. result_simpl.
    rewrite (key_of_value_function_None m) by assumption.
    rewrite !decide_False by discriminate. reflexivity. }
  split; [exact Hparse|]. split; [|split; apply lookup_empty].
  unfold validate, validate_with. rewrite Hcrc. result_simpl.
  rewrite Hparse. result_simpl. reflexivity.
Qed.

Lemma validate_crc_mismatch
    (parse : bytes -> bytes -> result (gmap string pyval))
    (mode : string) (command response crc : bytes) :
  get_crc (drop_last2 response) = Ok crc ->
  last2 response <> crc ->
  validate_with parse mode command response
    = Ok (false, {["mode" := VStr mode]}).
Proof.
  intros Hcrc Hne.
  unfold validate_with, crc_matches. rewrite Hcrc. result_simpl.
  rewrite bool_decide_eq_false_2 by exact Hne. reflexivity.
Qed.

Lemma validate_true_inv
    (parse : bytes -> bytes -> result (gmap string pyval))
    (mode : string) (command response : bytes) (parsed : gmap string pyval) :
  validate_with parse mode command response = Ok (true, parsed) ->
  crc_matches response = Ok true /\ parse command response = Ok parsed.
Proof.
  unfold validate_with.
  destruct (crc_matches_total response) as ([|] & ->); result_simpl.
  - destruct (parse command response) as [d|e]; result_simpl.
    + intros [= <-]. split; reflexivity.
    + discriminate.
  - discriminate.
Qed.

Lemma getitem_not_in {V} (d : list (string * V)) (k : string) :
  k ∉ d.*1 -> getitem d k = Raise KeyError.
Proof.
  induction d as [|[k' v] d IH]; intros Hk; [reflexivity|].
  cbn [getitem]. rewrite fmap_cons, not_elem_of_cons in Hk. destruct Hk as [Hne Hk].
  rewrite decide_False by (cbn in Hne; congruence). now apply IH.
Qed.

(** A command naming an unknown mode or register is refused while it is
    being assembled. *)
Lemma assemble_unknown (address : Z) (mode : string) (regs : registers_arg)
    (data : data_arg) :
  mode ∉ function.*1 \/ registers_key regs ∉ registers.*1 ->
  exists e : exn,
    assemble address mode regs data = Raise e /\
    (0 <= address < 256 -> e = KeyError).
Proof.
  intros Hbad. unfold assemble, byte_packer.pack.
  destruct (decide (0 <= address < 256)) as [Ha|Ha]; result_simpl.
  - exists KeyError. split; [|reflexivity].
    destruct (getitem function mode) as [f|e] eqn:Ef; result_simpl.
    + destruct Hbad as [Hm|Hr].
      * rewrite (getitem_not_in _ _ Hm) in Ef. discriminate.
      * rewrite (getitem_not_in _ _ Hr). result_simpl. reflexivity.
    + destruct (decide (mode ∈ function.*1)) as [Hin|Hm].
      * unfold function in Hin, Ef. cbn in Hin, Ef.
        rewrite !elem_of_cons in Hin.
        destruct Hin as [->|[->|[->|Hin]]]; [discriminate..|].
        now apply elem_of_nil in Hin.
      * rewrite (getitem_not_in _ _ Hm) in Ef. now injection Ef as <-.
  - exists struct_error. split; [reflexivity|]. intros Ha'. contradiction.
Qed.


Lemma function_code_read : key_of_value function [x03] = Some "read".
Proof. reflexivity. Qed.
Lemma function_code_single_write : key_of_value function [x06] = Some "single_write".
Proof. reflexivity. Qed.
Lemma function_code_multiple_write :
  key_of_value function [x10] = Some "multiple_write".
Proof. reflexivity. Qed.

Lemma slice_window (i n : nat) (l : list string) :
  slice i (i + n) l = take n (drop i l).
Proof. unfold slice. now replace (i + n - i)%nat with n by lia. Qed.

(** The multiple_write branch of the parser on a confirmation frame. *)
Lemma parse_multiple_write (command : bytes) (a : byte) (name : string)
    (addr : bytes) (n : Z) (c_lo c_hi : byte) :
  getitem registers name = Ok addr ->
  0 <= n < 65536 ->
  (2 * Z.to_nat n <= length (command_payload command))%nat ->
  exists i : nat,
    index register_order name = Ok i /\
    __parse_response command (multiple_write_reply a addr n [c_lo; c_hi])
      = Ok (<["data" := VInts (take (Z.to_nat n) (words_of (command_payload command)))]>
             (<["registers" := VStrs (take (Z.to_nat n) (drop i register_order))]>
               (<["mode" := VStr "multiple_write"]>
                 (<["address" := VInt (Z_of_byte a)]> ∅)))).
Proof.
  intros Hname Hn Hlen.
  destruct (getitem_registers_inv _ _ Hname) as (i & Hidx & _ & -> & _ & Hkey).
  exists i. split; [exact Hidx|].
  unfold __parse_response, multiple_write_reply.
  set (r_lo := to_byte (Z.of_nat i)) in *.
  set (n_hi := to_byte (n / 256)). set (n_lo := to_byte n).
  change ([a; x10] ++ [x00; r_lo] ++ [n_hi; n_lo] ++ [c_lo; c_hi])
    with [a; x10; x00; r_lo; n_hi; n_lo; c_lo; c_hi].
  change (take 1 [a; x10; x00; r_lo; n_hi; n_lo; c_lo; c_hi]) with [a].
  change (slice 1 2 [a; x10; x00; r_lo; n_hi; n_lo; c_lo; c_hi]) with [x10].
  change (drop 2 (drop_last2 [a; x10; x00; r_lo; n_hi; n_lo; c_lo; c_hi]))
    with [x00; r_lo; n_hi; n_lo].
  change (take 2 [x00; r_lo; n_hi; n_lo]) with [x00; r_lo].
  change (drop 2 [x00; r_lo; n_hi; n_lo]) with [n_hi; n_lo].
  cbn [byte_packer.unpack]. result_simpl.
  rewrite function_code_multiple_write.
  rewrite !(decide_False (P := Some "multiple_write" = Some "read")) by discriminate.
  rewrite !(decide_False (P := Some "multiple_write" = Some "single_write"))
    by discriminate.
  rewrite decide_True by reflexivity.
  unfold n_hi, n_lo. rewrite (data_unpack_bytes n Hn). result_simpl.
  rewrite Hkey. cbn [order_index]. rewrite Hidx. result_simpl.
  fold (command_payload command).
  rewrite unpack_items_words by exact Hlen. result_simpl.
  rewrite slice_window. reflexivity.
Qed.

(** When the command's payload is shorter than the echoed count asks for,
    the multiple_write branch raises. *)
Lemma parse_multiple_write_short (command : bytes) (a : byte) (name : string)
    (addr : bytes) (n : Z) (c_lo c_hi : byte) :
  getitem registers name = Ok addr ->
  0 <= n < 65536 ->
  (length (command_payload command) < 2 * Z.to_nat n)%nat ->
  __parse_response command (multiple_write_reply a addr n [c_lo; c_hi])
    = Raise struct_error.
Proof.
  intros Hname Hn Hlen.
  destruct (getitem_registers_inv _ _ Hname) as (i & Hidx & _ & -> & _ & Hkey).
  unfold __parse_response, multiple_write_reply.
  set (r_lo := to_byte (Z.of_nat i)) in *.
  set (n_hi := to_byte (n / 256)). set (n_lo := to_byte n).
  change ([a; x10] ++ [x00; r_lo] ++ [n_hi; n_lo] ++ [c_lo; c_hi])
    with [a; x10; x00; r_lo; n_hi; n_lo; c_lo; c_hi].
  change (take 1 [a; x10; x00; r_lo; n_hi; n_lo; c_lo; c_hi]) with [a].
  change (slice 1 2 [a; x10; x00; r_lo; n_hi; n_lo; c_lo; c_hi]) with [x10].
  change (drop 2 (drop_last2 [a; x10; x00; r_lo; n_hi; n_lo; c_lo; c_hi]))
    with [x00; r_lo; n_hi; n_lo].
  change (take 2 [x00; r_lo; n_hi; n_lo]) with [x00; r_lo].
  change (drop 2 [x00; r_lo; n_hi; n_lo]) with [n_hi; n_lo].
  cbn [byte_packer.unpack]. result_simpl.
  rewrite function_code_multiple_write.
  rewrite !(decide_False (P := Some "multiple_write" = Some "read")) by discriminate.
  rewrite !(decide_False (P := Some "multiple_write" = Some "single_write"))
    by discriminate.
  rewrite decide_True by reflexivity.
  unfold n_hi, n_lo. rewrite (data_unpack_bytes n Hn). result_simpl.
  rewrite Hkey. cbn [order_index]. rewrite Hidx. result_simpl.
  fold (command_payload command).
  rewrite unpack_items_short by exact Hlen. result_simpl. reflexivity.
Qed.


(** C4 (amended statement): on a confirmation frame (function code 0x10, a
    catalogued starting address, a count) whose CRC is valid, and a command
    whose payload holds that many values, validation succeeds and the parsed
    dictionary has the address byte of the response, mode multiple_write, the
    window of [count] names starting at the echoed register in
    [register_order], and as data the first [count] words of the command's
    bytes after its 7-byte header and before its CRC. *)
Theorem multiple_write_data_from_command (command : bytes) (a : byte)
    (name : string) (addr : bytes) (n : Z) (c_lo c_hi : byte) :
  getitem registers name = Ok addr ->
  0 <= n < 65536 ->
  (2 * Z.to_nat n <= length (command_payload command))%nat ->
  crc_matches (multiple_write_reply a addr n [c_lo; c_hi]) = Ok true ->
  exists i : nat,
    index register_order name = Ok i /\
    validate "multiple_write" command (multiple_write_reply a addr n [c_lo; c_hi])
      = Ok (true,
            <["data" := VInts (take (Z.to_nat n) (words_of (command_payload command)))]>
              (<["registers" := VStrs (take (Z.to_nat n) (drop i register_order))]>
                (<["mode" := VStr "multiple_write"]>
                  (<["address" := VInt (Z_of_byte a)]> ∅)))).
Proof.
  intros Hname Hn Hlen Hcrc.
  destruct (parse_multiple_write command a name addr n c_lo c_hi Hname Hn Hlen)
    as (i & Hidx & Hparse).
  exists i. split; [exact Hidx|].
  unfold validate, validate_with. rewrite Hcrc. result_simpl.
  rewrite Hparse. result_simpl. reflexivity.
Qed.

(** What a successful [register_order.index] tells about a name. *)
Lemma index_registers_inv (name : string) (i : nat) :
  index register_order name = Ok i ->
  (i < 13)%nat /\
  getitem registers name = Ok [x00; to_byte (Z.of_nat i)] /\
  key_of_value registers [x00; to_byte (Z.of_nat i)] = Some name /\
  register_order !! i = Some name.
Proof.
  unfold index, register_order. cbn [index_from].
  repeat (case_decide as Hk;
    [ intros [= <-]; subst name; split; [lia|repeat split; reflexivity]
    | clear Hk ]).
  discriminate.
Qed.

Lemma function_read : getitem function "read" = Ok [x03].
Proof. reflexivity. Qed.
Lemma function_multiple_write : getitem function "multiple_write" = Ok [x10].
Proof. reflexivity. Qed.

(** The frames [send_command] assembles for a valid command, byte by byte. *)
Lemma assemble_single_write (address : Z) (name : string) (i : nat) (value : Z)
    (lo hi : byte) :
  0 <= address < 256 ->
  index register_order name = Ok i ->
  0 <= value < 65536 ->
  get_crc [to_byte address; x06; x00; to_byte (Z.of_nat i);
           to_byte (value / 256); to_byte value] = Ok [lo; hi] ->
  assemble address "single_write" (RegName name) (DataInt value)
    = Ok ([to_byte address; x06; x00; to_byte (Z.of_nat i);
           to_byte (value / 256); to_byte value; lo; hi],
          [to_byte address; x06; x00; to_byte (Z.of_nat i);
           to_byte (value / 256); to_byte value; lo; hi]).
Proof.
  intros Ha Hidx Hv Hcrc.
  destruct (index_registers_inv _ _ Hidx) as (_ & Hn & _).
  unfold assemble.
  rewrite (proj1 (byte_unpack_pack _ Ha)). result_simpl.
  rewrite function_single_write. result_simpl.
  cbn [registers_key registers_self]. rewrite Hn. result_simpl.
  rewrite decide_False by discriminate. rewrite decide_True by reflexivity.
  cbn [pack_data]. rewrite (data_pack_ok _ Hv). result_simpl.
  cbn [app]. rewrite Hcrc. result_simpl. reflexivity.
Qed.

Lemma assemble_multiple_write (address : Z) (start : string) (i : nat)
    (vs : list Z) (lo1 hi1 lo2 hi2 : byte) :
  let n := Z.of_nat (length vs) in
  0 <= address < 256 ->
  index register_order start = Ok i ->
  (length vs <= 13)%nat ->
  Forall (fun v => 0 <= v < 65536) vs ->
  get_crc ([to_byte address; x10; x00; to_byte (Z.of_nat i);
            to_byte (n / 256); to_byte n; to_byte (2 * n)] ++ pack_words vs)
    = Ok [lo1; hi1] ->
  get_crc [to_byte address; x10; x00; to_byte (Z.of_nat i);
           to_byte (n / 256); to_byte n] = Ok [lo2; hi2] ->
  assemble address "multiple_write" (RegSpan start n) (DataSeq vs)
    = Ok (([to_byte address; x10; x00; to_byte (Z.of_nat i);
            to_byte (n / 256); to_byte n; to_byte (2 * n)] ++ pack_words vs)
            ++ [lo1; hi1],
          [to_byte address; x10; x00; to_byte (Z.of_nat i);
           to_byte (n / 256); to_byte n; lo2; hi2]).
Proof.
  intros n Ha Hidx Hlen Hvs Hcrc1 Hcrc2.
  destruct (index_registers_inv _ _ Hidx) as (_ & Hn & _).
  assert (Hn16 : 0 <= n < 65536) by (unfold n; lia).
  assert (Hn8 : 0 <= 2 * n < 256) by (unfold n; lia).
  unfold assemble.
  rewrite (proj1 (byte_unpack_pack _ Ha)). result_simpl.
  rewrite function_multiple_write. result_simpl.
  cbn [registers_key registers_1]. rewrite Hn. result_simpl.
  rewrite !(decide_False (P := "multiple_write" = "read")) by discriminate.
  rewrite !(decide_False (P := "multiple_write" = "single_write")) by discriminate.
  rewrite decide_True by reflexivity. result_simpl.
  rewrite (data_pack_ok _ Hn16). result_simpl.
  rewrite (proj1 (byte_unpack_pack _ Hn8)). result_simpl.
  unfold n at 3. rewrite Nat2Z.id.
  rewrite (pack_items_words [] vs _ Hvs). result_simpl.
  cbn [app] in Hcrc1, Hcrc2 |- *. rewrite Hcrc1, Hcrc2. result_simpl. reflexivity.
Qed.

Lemma assemble_read (address : Z) (start : string) (i : nat) (n : Z)
    (data : data_arg) (lo1 hi1 lo2 hi2 : byte) :
  0 <= address < 256 ->
  index register_order start = Ok i ->
  0 <= n <= 13 ->
  get_crc [to_byte address; x03; x00; to_byte (Z.of_nat i);
           to_byte (n / 256); to_byte n] = Ok [lo1; hi1] ->
  get_crc ([to_byte address; x03; to_byte (n * 2)]
             ++ pack_words (replicate (Z.to_nat n) 0)) = Ok [lo2; hi2] ->
  assemble address "read" (RegSpan start n) data
    = Ok ([to_byte address; x03; x00; to_byte (Z.of_nat i);
           to_byte (n / 256); to_byte n; lo1; hi1],
          ([to_byte address; x03; to_byte (n * 2)]
             ++ pack_words (replicate (Z.to_nat n) 0)) ++ [lo2; hi2]).
Proof.
  intros Ha Hidx Hn Hcrc1 Hcrc2.
  destruct (index_registers_inv _ _ Hidx) as (_ & Hname & _).
  assert (Hn16 : 0 <= n < 65536) by lia.
  assert (Hn8 : 0 <= n * 2 < 256) by lia.
  unfold assemble.
  rewrite (proj1 (byte_unpack_pack _ Ha)). result_simpl.
  rewrite function_read. result_simpl.
  cbn [registers_key registers_1]. rewrite Hname. result_simpl.
  rewrite decide_True by reflexivity. result_simpl.
  rewrite (data_pack_ok _ Hn16). result_simpl.
  rewrite (proj1 (byte_unpack_pack _ Hn8)). result_simpl.
  rewrite iter_placeholders.
  cbn [app] in Hcrc1, Hcrc2 |- *. rewrite Hcrc1, Hcrc2. result_simpl. reflexivity.
Qed.

Lemma crc_matches_app (body : bytes) (lo hi : byte) :
  get_crc body = Ok [lo; hi] -> crc_matches (body ++ [lo; hi]) = Ok true.
Proof.
  intros Hcrc. unfold crc_matches. rewrite drop_last2_app, Hcrc. result_simpl.
  rewrite last2_app. now rewrite bool_decide_eq_true_2.
Qed.

Lemma split_last2 {A} (l : list A) :
  (2 <= length l)%nat -> exists (l' : list A) (a b : A), l = l' ++ [a; b].
Proof.
  intros Hlen.
  assert (Hl : length (last2 l) = 2%nat)
    by (unfold last2; rewrite length_drop; lia).
  destruct (last2 l) as [|a [|b [|c t]]] eqn:E; try discriminate.
  exists (drop_last2 l), a, b. rewrite <- E. unfold drop_last2, last2.
  now rewrite take_drop.
Qed.

Lemma length_words_of (k : nat) (payload : bytes) :
  length payload = (2 * k)%nat -> length (words_of payload) = k.
Proof.
  revert payload. induction k as [|k IH]; intros payload Hlen.
  - destruct payload; [reflexivity|discriminate].
  - destruct payload as [|hi [|lo payload]]; cbn [length] in Hlen; try lia.
    cbn [words_of length]. f_equal. apply IH. lia.
Qed.

(** The single_write branch of the parser on an echo frame. *)
Lemma parse_single_write (command : bytes) (a : byte) (name : string) (i : nat)
    (v : Z) (c_lo c_hi : byte) :
  index register_order name = Ok i ->
  0 <= v < 65536 ->
  __parse_response command
    [a; x06; x00; to_byte (Z.of_nat i); to_byte (v / 256); to_byte v; c_lo; c_hi]
    = Ok (<["registers" := VStr name]>
           (<["data" := VInt v]>
             (<["mode" := VStr "single_write"]>
               (<["address" := VInt (Z_of_byte a)]> ∅)))).
Proof.
  intros Hidx Hv.
  destruct (index_registers_inv _ _ Hidx) as (_ & _ & Hkey & _).
  unfold __parse_response.
  set (r_lo := to_byte (Z.of_nat i)) in *.
  set (v_hi := to_byte (v / 256)). set (v_lo := to_byte v).
  change (take 1 [a; x06; x00; r_lo; v_hi; v_lo; c_lo; c_hi]) with [a].
  change (slice 1 2 [a; x06; x00; r_lo; v_hi; v_lo; c_lo; c_hi]) with [x06].
  change (drop 2 (drop_last2 [a; x06; x00; r_lo; v_hi; v_lo; c_lo; c_hi]))
    with [x00; r_lo; v_hi; v_lo].
  change (take 2 [x00; r_lo; v_hi; v_lo]) with [x00; r_lo].
  change (drop 2 [x00; r_lo; v_hi; v_lo]) with [v_hi; v_lo].
  cbn [byte_packer.unpack]. result_simpl.
  rewrite function_code_single_write.
  rewrite !(decide_False (P := Some "single_write" = Some "read")) by discriminate.
  rewrite decide_True by reflexivity.
  unfold v_hi, v_lo. rewrite (data_unpack_bytes v Hv). result_simpl.
  rewrite Hkey. reflexivity.
Qed.

(** The read branch of the parser: the registers are counted from the byte
    count of the response and named from the starting register of the
    command; the data are the words that follow the byte count. *)
Lemma parse_read (c0 c1 : byte) (tail : bytes) (a bc : byte) (payload : bytes)
    (c_lo c_hi : byte) (start : string) (i : nat) :
  let count := Z.to_nat (Z_of_byte bc `div` 2) in
  index register_order start = Ok i ->
  (2 * count <= length payload)%nat ->
  __parse_response (c0 :: c1 :: x00 :: to_byte (Z.of_nat i) :: tail)
    (([a; x03; bc] ++ payload) ++ [c_lo; c_hi])
    = Ok (<["data" := VInts (take count (words_of payload))]>
           (<["registers" := VStrs (take count (drop i register_order))]>
             (<["mode" := VStr "read"]>
               (<["address" := VInt (Z_of_byte a)]> ∅)))).
Proof.
  intros count Hidx Hlen.
  destruct (index_registers_inv _ _ Hidx) as (_ & _ & Hkey & _).
  unfold __parse_response.
  rewrite drop_last2_app.
  set (r_lo := to_byte (Z.of_nat i)) in *.
  change (take 1 (([a; x03; bc] ++ payload) ++ [c_lo; c_hi])) with [a].
  change (slice 1 2 (([a; x03; bc] ++ payload) ++ [c_lo; c_hi])) with [x03].
  change (slice 2 4 (c0 :: c1 :: x00 :: r_lo :: tail))
    with (take 2 (x00 :: r_lo :: tail)).
  change (take 2 (x00 :: r_lo :: tail)) with (x00 :: r_lo :: take 0 tail).
  rewrite take_0.
  change (drop 2 ([a; x03; bc] ++ payload)) with (bc :: payload).
  change (take 1 (bc :: payload)) with (bc :: take 0 payload).
  rewrite take_0.
  change (drop 1 (bc :: payload)) with payload.
  cbn [byte_packer.unpack]. result_simpl.
  rewrite function_code_read.
  rewrite decide_True by reflexivity.
  rewrite Hkey. cbn [order_index]. rewrite Hidx. result_simpl.
  fold count.
  rewrite unpack_items_words by exact Hlen. result_simpl.
  rewrite slice_window. reflexivity.
Qed.

Lemma parsed_lookups (a m r d : pyval) :
  let parsed : gmap string pyval :=
    <["data" := d]> (<["registers" := r]> (<["mode" := m]> (<["address" := a]> ∅))) in
  parsed !! "address" = Some a /\ parsed !! "mode" = Some m /\
  parsed !! "registers" = Some r /\ parsed !! "data" = Some d.
Proof. intros parsed. unfold parsed. repeat split; by simplify_map_eq. Qed.

Lemma parsed_lookups_single (a m r d : pyval) :
  let parsed : gmap string pyval :=
    <["registers" := r]> (<["data" := d]> (<["mode" := m]> (<["address" := a]> ∅))) in
  parsed !! "address" = Some a /\ parsed !! "mode" = Some m /\
  parsed !! "registers" = Some r /\ parsed !! "data" = Some d.
Proof. intros parsed. unfold parsed. repeat split; by simplify_map_eq. Qed.

(** C1 (amended statement): for a valid command of any of the three modes built for
    a packable address, a response of the expected shape passes validation
    and is parsed to the command's address and mode, to the register the
    command names (for a span: the [count] names from the starting register
    on), and to data that are the command's own for single_write and
    multiple_write and the register values carried by the response for
    read. *)
Theorem round_trip (address : Z) (mode : string) (regs : registers_arg)
    (data : data_arg) :
  0 <= address < 256 ->
  valid_command mode regs data ->
  exists command expected_response : bytes,
    assemble address mode regs data = Ok (command, expected_response) /\
    forall response : bytes,
      matches_expected mode expected_response response ->
      exists parsed : gmap string pyval,
        validate mode command response = Ok (true, parsed) /\
        parsed !! "address" = Some (VInt address) /\
        parsed !! "mode" = Some (VStr mode) /\
        parsed !! "registers" = named_registers regs /\
        parsed !! "data" = round_trip_data mode data response.
Proof.
  intros Ha Hvalid.
  pose proof (proj2 (byte_unpack_pack _ Ha)) as Haddr.
  destruct Hvalid as [start i n data Hidx Hn0 Hspan
                     |name i v Hidx Hv
                     |start i vs Hidx Hspan Hvs].
  - (* read *)
    assert (Hn : 0 <= n <= 13) by lia.
    destruct (get_crc_two [to_byte address; x03; x00; to_byte (Z.of_nat i);
                           to_byte (n / 256); to_byte n]) as (lo1 & hi1 & Hcrc1).
    destruct (get_crc_two ([to_byte address; x03; to_byte (n * 2)]
                             ++ pack_words (replicate (Z.to_nat n) 0)))
      as (lo2 & hi2 & Hcrc2).
    eexists _, _. split;
      [exact (assemble_read address start i n data lo1 hi1 lo2 hi2
                Ha Hidx Hn Hcrc1 Hcrc2)|].
    intros response Hm. unfold matches_expected in Hm.
    rewrite decide_True in Hm by reflexivity.
    destruct Hm as (Hlen & Htake & Hcrc).
    rewrite !length_app, length_pack_words, length_replicate in Hlen.
    cbn [length] in Hlen.
    change (take 3 (([to_byte address; x03; to_byte (n * 2)]
                       ++ pack_words (replicate (Z.to_nat n) 0)) ++ [lo2; hi2]))
      with ([to_byte address; x03; to_byte (n * 2)]
              ++ take 0 (pack_words (replicate (Z.to_nat n) 0) ++ [lo2; hi2]))
      in Htake.
    rewrite take_0 in Htake.
    destruct response as [|r0 [|r1 [|r2 rest]]]; try discriminate Htake.
    change (take 3 (r0 :: r1 :: r2 :: rest)) with (r0 :: r1 :: r2 :: take 0 rest)
      in Htake.
    rewrite take_0 in Htake. injection Htake as -> -> ->.
    cbn [length] in Hlen.
    destruct (split_last2 rest) as (payload & c_lo & c_hi & ->); [lia|].
    rewrite length_app in Hlen. cbn [length] in Hlen.
    assert (Hpay : length payload = (2 * Z.to_nat n)%nat) by lia.
    change (to_byte address :: x03 :: to_byte (n * 2) :: payload ++ [c_lo; c_hi])
      with (([to_byte address; x03; to_byte (n * 2)] ++ payload) ++ [c_lo; c_hi])
      in *.
    assert (Hcount : Z.to_nat (Z_of_byte (to_byte (n * 2)) `div` 2) = Z.to_nat n).
    { rewrite Z_of_to_byte, Z.mod_small by lia. now rewrite Z.div_mul by lia. }
    pose proof (parse_read (to_byte address) x03 [to_byte (n / 256); to_byte n; lo1; hi1]
                  (to_byte address) (to_byte (n * 2)) payload c_lo c_hi start i
                  Hidx) as Hparse.
    cbv zeta in Hparse. rewrite Hcount in Hparse.
    specialize (Hparse ltac:(lia)).
    eexists. split.
    { unfold validate, validate_with. rewrite Hcrc. result_simpl.
      rewrite Hparse. result_simpl. reflexivity. }
    destruct (parsed_lookups (VInt (Z_of_byte (to_byte address))) (VStr "read")
                (VStrs (take (Z.to_nat n) (drop i register_order)))
                (VInts (take (Z.to_nat n) (words_of payload))))
      as (-> & -> & -> & ->).
    rewrite Haddr. cbn [named_registers]. rewrite Hidx.
    repeat split.
    unfold round_trip_data, response_values. rewrite decide_True by reflexivity.
    rewrite drop_last2_app.
    change (drop 3 ([to_byte address; x03; to_byte (n * 2)] ++ payload)) with payload.
    rewrite take_ge; [reflexivity|].
    rewrite (length_words_of _ _ Hpay). lia.
  - (* single_write *)
    destruct (get_crc_two [to_byte address; x06; x00; to_byte (Z.of_nat i);
                           to_byte (v / 256); to_byte v]) as (lo & hi & Hcrc).
    eexists _, _. split;
      [exact (assemble_single_write address name i v lo hi Ha Hidx Hv Hcrc)|].
    intros response Hm. unfold matches_expected in Hm.
    rewrite decide_False in Hm by discriminate. subst response.
    eexists. split.
    { unfold validate, validate_with.
      change (crc_matches [to_byte address; x06; x00; to_byte (Z.of_nat i);
                           to_byte (v / 256); to_byte v; lo; hi])
        with (crc_matches ([to_byte address; x06; x00; to_byte (Z.of_nat i);
                            to_byte (v / 256); to_byte v] ++ [lo; hi])).
      rewrite (crc_matches_app _ _ _ Hcrc). result_simpl.
      rewrite (parse_single_write _ _ name i v lo hi Hidx Hv). result_simpl.
      reflexivity. }
    destruct (parsed_lookups_single (VInt (Z_of_byte (to_byte address)))
                (VStr "single_write") (VStr name) (VInt v))
      as (-> & -> & -> & ->).
    rewrite Haddr. repeat split.
  - (* multiple_write *)
    set (n := Z.of_nat (length vs)).
    assert (Hn : 0 <= n < 65536) by (unfold n; lia).
    destruct (index_registers_inv _ _ Hidx) as (_ & Hname & _).
    destruct (get_crc_two ([to_byte address; x10; x00; to_byte (Z.of_nat i);
                            to_byte (n / 256); to_byte n; to_byte (2 * n)]
                             ++ pack_words vs)) as (lo1 & hi1 & Hcrc1).
    destruct (get_crc_two [to_byte address; x10; x00; to_byte (Z.of_nat i);
                           to_byte (n / 256); to_byte n]) as (lo2 & hi2 & Hcrc2).
    eexists _, _. split;
      [exact (assemble_multiple_write address start i vs lo1 hi1 lo2 hi2
                Ha Hidx ltac:(lia) Hvs Hcrc1 Hcrc2)|].
    intros response Hm. unfold matches_expected in Hm.
    rewrite decide_False in Hm by discriminate. subst response.
    fold n.
    set (command := ([to_byte address; x10; x00; to_byte (Z.of_nat i);
                      to_byte (n / 256); to_byte n; to_byte (2 * n)]
                       ++ pack_words vs) ++ [lo1; hi1]).
    assert (Hpayload : command_payload command = pack_words vs).
    { unfold command_payload, command. rewrite drop_last2_app. reflexivity. }
    assert (Hlen : (2 * Z.to_nat n <= length (command_payload command))%nat).
    { rewrite Hpayload, length_pack_words. unfold n. lia. }
    destruct (parse_multiple_write command (to_byte address) start
                [x00; to_byte (Z.of_nat i)] n lo2 hi2 Hname Hn Hlen)
      as (i' & Hidx' & Hparse).
    rewrite Hidx in Hidx'. injection Hidx' as <-.
    rewrite Hpayload, (words_of_pack_words vs Hvs) in Hparse.
    assert (Hall : take (Z.to_nat n) vs = vs)
      by (unfold n; rewrite Nat2Z.id; apply firstn_all).
    rewrite Hall in Hparse.
    eexists. split.
    { unfold validate, validate_with.
      change (crc_matches [to_byte address; x10; x00; to_byte (Z.of_nat i);
                           to_byte (n / 256); to_byte n; lo2; hi2])
        with (crc_matches ([to_byte address; x10; x00; to_byte (Z.of_nat i);
                            to_byte (n / 256); to_byte n] ++ [lo2; hi2])).
      rewrite (crc_matches_app _ _ _ Hcrc2). result_simpl.
      change [to_byte address; x10; x00; to_byte (Z.of_nat i);
              to_byte (n / 256); to_byte n; lo2; hi2]
        with (multiple_write_reply (to_byte address) [x00; to_byte (Z.of_nat i)]
                n [lo2; hi2]).
      rewrite Hparse. result_simpl. reflexivity. }
    destruct (parsed_lookups (VInt (Z_of_byte (to_byte address)))
                (VStr "multiple_write")
                (VStrs (take (Z.to_nat n) (drop i register_order)))
                (VInts vs))
      as (-> & -> & -> & ->).
    rewrite Haddr. cbn [named_registers]. rewrite Hidx. repeat split.
Qed.

(** ** Transport session *)

Section SessionProperties.
Context {World Port : Type} `{!Serial World Port}.
Implicit Types (s : session World Port).

Lemma M_bind_Ok {A B} (m : M A) (f : A -> M B) s (a : A) s1 :
  m s = (Ok a, s1) -> (m ≫= f) s = f a s1.
Proof. intros E. unfold mbind, M_bind. rewrite E. reflexivity. Qed.

Lemma M_bind_Raise {A B} (m : M A) (f : A -> M B) s (e : exn) s1 :
  m s = (Raise e, s1) -> (m ≫= f) s = (Raise e, s1).
Proof. intros E. unfold mbind, M_bind. rewrite E. reflexivity. Qed.

Lemma lift_run {A} (r : result A) s : lift r s = (r, s).
Proof. reflexivity. Qed.

Lemma disconnect_port_run s :
  disconnect_port s =
    (Ok (),
     match port s with
     | Some p => Session (serial_close p (world s)) None (trace s ++ [EvClose p])
     | None => s
     end).
Proof.
  unfold disconnect_port. rewrite (M_bind_Ok _ _ s (port s) s) by reflexivity.
  destruct (port s) as [p|]; reflexivity.
Qed.

(** A session without a port answers every [__send] with [b"\x00"] and
    calls nothing on the serial library. *)
Lemma send_disconnected s (command : bytes) (byte_length : nat) :
  port s = None -> __send command byte_length s = (Ok [x00], s).
Proof.
  intros Hp. unfold __send.
  assert (E : is_port_alive s = (Ok false, s)).
  { unfold is_port_alive. rewrite (M_bind_Ok _ _ s None s); [reflexivity|].
    unfold get_port. now rewrite Hp. }
  rewrite (M_bind_Ok _ _ _ _ _ E). reflexivity.
Qed.

Lemma send_all_disconnected s (calls : list (bytes * nat)) :
  port s = None ->
  send_all calls s = (Ok (map (fun _ => [x00]) calls), s).
Proof.
  intros Hp. induction calls as [|[command byte_length] calls IH].
  - reflexivity.
  - cbn [send_all map].
    rewrite (M_bind_Ok _ _ _ _ _ (send_disconnected s command byte_length Hp)).
    rewrite (M_bind_Ok _ _ _ _ _ IH). reflexivity.
Qed.

(** C3: when the last two bytes of the response are not the CRC of the
    bytes before them, [send_command] returns [False] with a dictionary
    that holds the attempted mode and nothing else, whatever parser it was
    given (so no decoding of the response takes place); a result flagged
    [True] arises only from a response whose CRC matches, and is then the
    parser's result on it. *)
Theorem send_command_crc_mismatch
    (parse : bytes -> bytes -> result (gmap string pyval))
    s s' (address : Z) (mode : string) (regs : registers_arg)
    (data : data_arg) (command expected_response response crc : bytes) :
  assemble address mode regs data = Ok (command, expected_response) ->
  __send command (length expected_response) s = (Ok response, s') ->
  get_crc (drop_last2 response) = Ok crc ->
  last2 response <> crc ->
  send_command_with parse address mode regs data s
    = (Ok (false, {["mode" := VStr mode]}), s') /\
  dom ({["mode" := VStr mode]} : gmap string pyval) = {["mode"]} /\
  (forall (s0 s1 : session World Port) (parsed : gmap string pyval),
      send_command_with parse address mode regs data s0
        = (Ok (true, parsed), s1) ->
      exists response' : bytes,
        __send command (length expected_response) s0 = (Ok response', s1) /\
        crc_matches response' = Ok true /\
        parse command response' = Ok parsed).
Proof.
  intros Hasm Hsend Hcrc Hne. split; [|split].
  - unfold send_command_with.
    rewrite (M_bind_Ok _ _ s (command, expected_response) s)
      by (rewrite lift_run, Hasm; reflexivity).
    cbv beta iota.
    rewrite (M_bind_Ok _ _ _ _ _ Hsend).
    rewrite lift_run, (validate_crc_mismatch _ _ _ _ _ Hcrc Hne). reflexivity.
  - apply dom_singleton_L.
  - intros s0 s1 parsed. unfold send_command_with.
    rewrite (M_bind_Ok _ _ s0 (command, expected_response) s0)
      by (rewrite lift_run, Hasm; reflexivity).
    cbv beta iota.
    destruct (__send command (length expected_response) s0) as [[response'|e] s2] eqn:E.
    + rewrite (M_bind_Ok _ _ _ _ _ E). rewrite lift_run.
      intros [= Hv <-]. exists response'. split; [reflexivity|].
      now apply validate_true_inv in Hv.
    + rewrite (M_bind_Raise _ _ _ _ _ E). discriminate.
Qed.

(** C5: a call naming a mode outside [function] or a register outside the
    catalog raises (a [KeyError] when the address itself packs) while the
    command is being assembled; the session is returned as it was, so its
    port is untouched and nothing was written or read. *)
Theorem send_command_unknown_raises s (address : Z) (mode : string)
    (regs : registers_arg) (data : data_arg) :
  mode ∉ function.*1 \/ registers_key regs ∉ registers.*1 ->
  exists e : exn,
    send_command address mode regs data s = (Raise e, s) /\
    (0 <= address < 256 -> e = KeyError).
Proof.
  intros Hbad.
  destruct (assemble_unknown address mode regs data Hbad) as (e & Hasm & He).
  exists e. split; [|exact He].
  unfold send_command, send_command_with.
  apply M_bind_Raise. rewrite lift_run, Hasm. reflexivity.
Qed.

(** C6: when probing the open port faults, [is_port_alive] closes the port,
    clears [self.port] and returns [False]; from then on every [__send]
    returns [b"\x00"] and leaves the session, its trace of serial calls
    included, exactly as it was: nothing is written or read. *)
Theorem probe_fault_disconnects s (p : Port) (w' : World)
    (calls : list (bytes * nat)) :
  port s = Some p ->
  serial_in_waiting p (world s) = (None, w') ->
  exists s1 : session World Port,
    is_port_alive s = (Ok false, s1) /\
    port s1 = None /\
    trace s1 = trace s ++ [EvProbe p; EvClose p] /\
    send_all calls s1 = (Ok (map (fun _ => [x00]) calls), s1).
Proof.
  intros Hp Hw.
  exists (Session (serial_close p w') None ((trace s ++ [EvProbe p]) ++ [EvClose p])).
  split; [|split; [reflexivity|split]].
  - unfold is_port_alive.
    rewrite (M_bind_Ok _ _ s (Some p) s) by (unfold get_port; now rewrite Hp).
    rewrite (M_bind_Ok _ _ s None (Session w' (port s) (trace s ++ [EvProbe p])))
      by (unfold call_in_waiting; now rewrite Hw).
    erewrite M_bind_Ok; [reflexivity|].
    rewrite disconnect_port_run. cbn [port world trace]. rewrite Hp. reflexivity.
  - cbn [trace]. now rewrite <- app_assoc.
  - now apply send_all_disconnected.
Qed.

Lemma try_except_run {A} (body handler : M A) (catches : exn -> bool) s :
  try_except body catches handler s =
    match body s with
    | (Ok a, s') => (Ok a, s')
    | (Raise e, s') => if catches e then handler s' else (Raise e, s')
    end.
Proof. reflexivity. Qed.

(** C7 (amended statement): [connect_port] first closes and forgets the
    port it holds, if any, then opens the named port with [timeout=1].  It
    returns [True] with the new port stored when the open succeeds, and
    [False] with no port stored when the open raises
    [serial.SerialException]; any other exception of the open is not caught
    and is raised by [connect_port] itself, again with no port stored. *)
Theorem connect_port_outcome s (port_name : string) :
  let w := match port s with
           | Some p => serial_close p (world s)
           | None => world s
           end in
  let opened := serial_Serial port_name 1 w in
  let s' (held : option Port) :=
    Session opened.2 held
      (trace s ++ match port s with Some p => [EvClose p] | None => [] end
               ++ [EvOpen port_name 1]) in
  connect_port port_name s =
    match opened.1 with
    | Ok p => (Ok true, s' (Some p))
    | Raise SerialException => (Ok false, s' None)
    | Raise e => (Raise e, s' None)
    end.
Proof.
  intros w opened s'. unfold connect_port.
  erewrite M_bind_Ok by apply disconnect_port_run.
  set (s0 := match port s with
             | Some p => Session (serial_close p (world s)) None (trace s ++ [EvClose p])
             | None => s
             end).
  assert (Hw0 : world s0 = w) by (unfold s0, w; destruct (port s); reflexivity).
  assert (Hp0 : port s0 = None).
  { unfold s0. destruct (port s) eqn:E; [reflexivity|exact E]. }
  assert (Ht0 : trace s0 = trace s ++ match port s with Some p => [EvClose p] | None => [] end).
  { unfold s0. destruct (port s); cbn [trace]; [reflexivity|now rewrite app_nil_r]. }
  rewrite try_except_run. unfold s', opened. clear s' opened.
  destruct (serial_Serial port_name 1 w) as [r w1] eqn:Eo.
  assert (Hcall : call_Serial port_name 1 s0
                  = (r, Session w1 None
                          (trace s ++ match port s with Some p => [EvClose p] | None => [] end
                                   ++ [EvOpen port_name 1]))).
  { unfold call_Serial. rewrite Hw0, Eo, Hp0, Ht0, <- app_assoc. reflexivity. }
  cbn [fst snd]. destruct r as [p1|e].
  - rewrite (M_bind_Ok _ _ _ _ _ Hcall). reflexivity.
  - rewrite (M_bind_Raise _ _ _ _ _ Hcall). destruct e; reflexivity.
Qed.
End SessionProperties.

(** * Further properties *)

(** ** CRC16 engine: residue and error detection *)

Lemma land_1_mod (c : Z) : Z.land c 1 = c mod 2.
Proof. exact (Z.land_ones c 1 ltac:(lia)). Qed.

Lemma crc_step_even (c : Z) : c mod 2 = 0 -> crc_step c = c / 2.
Proof.
  intros Hc. unfold crc_step. rewrite land_1_mod, Hc.
  rewrite decide_False by discriminate.
  now rewrite Z.shiftr_div_pow2 by lia.
Qed.

Lemma crc_step_odd (c : Z) : c mod 2 = 1 -> crc_step c = Z.lxor (c / 2) 0xA001.
Proof.
  intros Hc. unfold crc_step. rewrite land_1_mod, Hc.
  rewrite decide_True by reflexivity.
  now rewrite Z.shiftr_div_pow2 by lia.
Qed.

(** Shifting out [k] zero bits never feeds the polynomial in. *)
Lemma iter_crc_step_shift (k : nat) (x : Z) :
  Nat.iter k crc_step (x * 2 ^ Z.of_nat k) = x.
Proof.
  revert x. induction k as [|k IH]; intros x.
  - change (2 ^ Z.of_nat 0) with 1. now rewrite Z.mul_1_r.
  - rewrite Nat.iter_succ_r.
    assert (E : x * 2 ^ Z.of_nat (S k) = (x * 2 ^ Z.of_nat k) * 2).
    { rewrite Nat2Z.inj_succ, Z.pow_succ_r by lia. ring. }
    rewrite E, crc_step_even by (apply Z.mod_mul; lia).
    rewrite Z.div_mul by lia. apply IH.
Qed.

Lemma iter8_crc_step_high (x : Z) : Nat.iter 8 crc_step (x * 256) = x.
Proof. exact (iter_crc_step_shift 8 x). Qed.

Lemma lxor_low_byte_clears (c : Z) :
  0 <= c -> Z.lxor c (c mod 256) = c / 256 * 256.
Proof.
  intros Hc. apply Z.bits_inj'. intros n Hn.
  rewrite Z.lxor_spec.
  change 256 with (2 ^ 8).
  rewrite <- Z.shiftr_div_pow2, <- Z.shiftl_mul_pow2 by lia.
  rewrite Z.shiftl_spec by lia.
  destruct (Z_lt_le_dec n 8) as [Hlt|Hge].
  - rewrite Z.mod_pow2_bits_low by lia.
    rewrite (Z.testbit_neg_r _ (n - 8)) by lia. apply xorb_nilpotent.
  - rewrite Z.mod_pow2_bits_high by lia.
    rewrite Z.shiftr_spec by lia. rewrite xorb_false_r. f_equal. lia.
Qed.

Lemma fold_left_crc_app (m1 m2 : bytes) (c : Z) :
  fold_left crc_byte (m1 ++ m2) c = fold_left crc_byte m2 (fold_left crc_byte m1 c).
Proof. apply fold_left_app. Qed.

Lemma crc_acc_residue (message : bytes) :
  crc_acc (message ++ [to_byte (crc_acc message); to_byte (crc_acc message / 256)])
    = 0.
Proof.
  pose proof (crc_acc_range message) as Hr.
  unfold crc_acc at 1. rewrite fold_left_crc_app. fold (crc_acc message).
  set (c := crc_acc message) in *.
  rewrite !fold_left_cons. change (fold_left crc_byte [] ?x) with x.
  assert (Hhi : 0 <= c / 256 < 256)
    by (split; [apply Z.div_pos | apply Z.div_lt_upper_bound]; lia).
  assert (E1 : crc_byte c (to_byte c) = c / 256).
  { unfold crc_byte. rewrite Z_of_to_byte, lxor_low_byte_clears by lia.
    apply iter8_crc_step_high. }
  rewrite E1.
  unfold crc_byte. rewrite Z_of_to_byte, (Z.mod_small (c / 256)) by lia.
  rewrite Z.lxor_nilpotent. exact (iter8_crc_step_high 0).
Qed.

(** X1: a message followed by its own CRC, low byte first, has CRC zero:
    [get_crc(message + get_crc(message)) == b"\x00\x00"]. *)
Theorem get_crc_residue_zero (message crc : bytes) :
  get_crc message = Ok crc ->
  get_crc (message ++ crc) = Ok [x00; x00].
Proof.
  rewrite get_crc_ok. intros [= <-].
  rewrite get_crc_ok, crc_acc_residue. reflexivity.
Qed.

Lemma lxor_cancel_r (a b k : Z) : Z.lxor a k = Z.lxor b k -> a = b.
Proof.
  intros E. apply (f_equal (fun z => Z.lxor z k)) in E.
  now rewrite !Z.lxor_assoc, !Z.lxor_nilpotent, !Z.lxor_0_r in E.
Qed.

Lemma lxor_cancel_l (k a b : Z) : Z.lxor k a = Z.lxor k b -> a = b.
Proof. rewrite !(Z.lxor_comm k). apply lxor_cancel_r. Qed.

Lemma testbit_15_half (c : Z) : 0 <= c < 65536 -> Z.testbit (c / 2) 15 = false.
Proof.
  intros Hc.
  assert (Hh : 0 <= c / 2 < 32768)
    by (split; [apply Z.div_pos | apply Z.div_lt_upper_bound]; lia).
  destruct (Z.eq_dec (c / 2) 0) as [->|Hne]; [apply Z.bits_0|].
  apply Z.bits_above_log2; [lia|].
  assert (Z.log2 (c / 2) < 15) by (apply Z.log2_lt_pow2; lia). lia.
Qed.

(** One shift of the register loses nothing: the bit shifted out can be read
    back from bit 15, which only the polynomial sets. *)
Lemma crc_step_inj (c1 c2 : Z) :
  0 <= c1 < 65536 -> 0 <= c2 < 65536 -> crc_step c1 = crc_step c2 -> c1 = c2.
Proof.
  intros H1 H2 E.
  pose proof (testbit_15_half c1 H1) as T1.
  pose proof (testbit_15_half c2 H2) as T2.
  pose proof (Z.div_mod c1 2 ltac:(lia)) as D1.
  pose proof (Z.div_mod c2 2 ltac:(lia)) as D2.
  pose proof (Z.mod_pos_bound c1 2 ltac:(lia)) as B1.
  pose proof (Z.mod_pos_bound c2 2 ltac:(lia)) as B2.
  assert (P1 : c1 mod 2 = 0 \/ c1 mod 2 = 1) by lia.
  assert (P2 : c2 mod 2 = 0 \/ c2 mod 2 = 1) by lia.
  destruct P1 as [P1|P1], P2 as [P2|P2].
  - rewrite !crc_step_even in E by assumption. lia.
  - rewrite crc_step_even, crc_step_odd in E by assumption.
    apply (f_equal (fun z => Z.testbit z 15)) in E.
    rewrite Z.lxor_spec, T1, T2 in E. discriminate E.
  - rewrite crc_step_odd, crc_step_even in E by assumption.
    apply (f_equal (fun z => Z.testbit z 15)) in E.
    rewrite Z.lxor_spec, T1, T2 in E. discriminate E.
  - rewrite !crc_step_odd in E by assumption.
    apply lxor_cancel_r in E. lia.
Qed.

Lemma iter_crc_step_inj (n : nat) (c1 c2 : Z) :
  0 <= c1 < 65536 -> 0 <= c2 < 65536 ->
  Nat.iter n crc_step c1 = Nat.iter n crc_step c2 -> c1 = c2.
Proof.
  intros H1 H2. induction n as [|n IH]; [easy|].
  rewrite !Nat.iter_succ. intros E. apply IH.
  apply crc_step_inj in E; [exact E | | ]; now apply iter_crc_step_range.
Qed.

Lemma crc_byte_eq (c : Z) (b : byte) :
  crc_byte c b = Nat.iter 8 crc_step (Z.lxor c (Z_of_byte b)).
Proof. reflexivity. Qed.

Lemma crc_byte_inj_byte (c : Z) (b1 b2 : byte) :
  0 <= c < 65536 -> crc_byte c b1 = crc_byte c b2 -> b1 = b2.
Proof.
  intros Hc E. rewrite !crc_byte_eq in E.
  apply Z_of_byte_inj, (lxor_cancel_l c).
  apply (iter_crc_step_inj 8 _ _ (lxor_byte_range c b1 Hc) (lxor_byte_range c b2 Hc) E).
Qed.

Lemma crc_byte_inj_state (c1 c2 : Z) (b : byte) :
  0 <= c1 < 65536 -> 0 <= c2 < 65536 -> crc_byte c1 b = crc_byte c2 b -> c1 = c2.
Proof.
  intros H1 H2 E. rewrite !crc_byte_eq in E.
  apply (lxor_cancel_r _ _ (Z_of_byte b)).
  apply (iter_crc_step_inj 8 _ _ (lxor_byte_range c1 b H1) (lxor_byte_range c2 b H2) E).
Qed.

Lemma fold_crc_byte_inj (message : bytes) (c1 c2 : Z) :
  0 <= c1 < 65536 -> 0 <= c2 < 65536 ->
  fold_left crc_byte message c1 = fold_left crc_byte message c2 -> c1 = c2.
Proof.
  revert c1 c2. induction message as [|b m IH]; intros c1 c2 H1 H2; [easy|].
  rewrite !fold_left_cons. intros E.
  apply IH in E; try now apply crc_byte_range.
  now apply crc_byte_inj_state in E.
Qed.

Lemma crc_acc_one_byte (pre post : bytes) (b b' : byte) :
  crc_acc (pre ++ b :: post) = crc_acc (pre ++ b' :: post) -> b = b'.
Proof.
  unfold crc_acc. rewrite !fold_left_crc_app, !fold_left_cons. intros E.
  assert (Hp : 0 <= fold_left crc_byte pre 65535 < 65536)
    by (apply fold_crc_byte_range; lia).
  apply fold_crc_byte_inj in E; try now apply crc_byte_range.
  now apply crc_byte_inj_byte in E.
Qed.

Lemma crc_pack_inj (c1 c2 : Z) :
  0 <= c1 < 65536 -> 0 <= c2 < 65536 ->
  [to_byte c1; to_byte (c1 / 256)] = [to_byte c2; to_byte (c2 / 256)] -> c1 = c2.
Proof.
  intros H1 H2 [= Elo Ehi].
  apply (f_equal Z_of_byte) in Elo, Ehi. rewrite !Z_of_to_byte in Elo, Ehi.
  pose proof (Z.div_mod c1 256 ltac:(lia)) as D1.
  pose proof (Z.div_mod c2 256 ltac:(lia)) as D2.
  assert (0 <= c1 / 256 < 256)
    by (split; [apply Z.div_pos | apply Z.div_lt_upper_bound]; lia).
  assert (0 <= c2 / 256 < 256)
    by (split; [apply Z.div_pos | apply Z.div_lt_upper_bound]; lia).
  rewrite !Z.mod_small in Ehi by lia. lia.
Qed.

Lemma get_crc_one_byte (pre post : bytes) (b b' : byte) :
  get_crc (pre ++ b :: post) = get_crc (pre ++ b' :: post) -> b = b'.
Proof.
  rewrite !get_crc_ok. intros [= Elo Ehi].
  apply (crc_acc_one_byte pre post). apply crc_pack_inj; try apply crc_acc_range.
  now rewrite Elo, Ehi.
Qed.

Lemma crc_matches_app_inv (body : bytes) (lo hi : byte) :
  crc_matches (body ++ [lo; hi]) = Ok true -> get_crc body = Ok [lo; hi].
Proof.
  unfold crc_matches. rewrite drop_last2_app, last2_app.
  destruct (get_crc_two body) as (l & h & ->). result_simpl.
  intros [= E]. apply bool_decide_eq_true_1 in E. now rewrite E.
Qed.

Lemma crc_matches_app_ne (body : bytes) (lo hi : byte) :
  get_crc body <> Ok [lo; hi] -> crc_matches (body ++ [lo; hi]) = Ok false.
Proof.
  intros Hne. unfold crc_matches. rewrite drop_last2_app, last2_app.
  destruct (get_crc_two body) as (l & h & E). rewrite E. result_simpl.
  rewrite bool_decide_eq_false_2; [reflexivity|].
  intros E'. apply Hne. now rewrite E, E'.
Qed.

Lemma crc_matches_short (response : bytes) :
  (length response < 2)%nat -> crc_matches response = Ok false.
Proof.
  intros Hlen. unfold crc_matches.
  destruct (get_crc_two (drop_last2 response)) as (l & h & ->). result_simpl.
  rewrite bool_decide_eq_false_2; [reflexivity|].
  intros E. apply (f_equal length) in E. unfold last2 in E.
  rewrite length_drop in E. cbn [length] in E. lia.
Qed.

(** X2: a frame that passes the CRC check stops passing it when any one of its
    bytes, in the body or in the CRC field, is replaced by a different byte. *)
Theorem single_byte_corruption_rejected (pre post : bytes) (b b' : byte) :
  crc_matches (pre ++ b :: post) = Ok true ->
  b <> b' ->
  crc_matches (pre ++ b' :: post) = Ok false.
Proof.
  intros Hok Hne.
  destruct (decide (2 <= length post)%nat) as [Hlen|Hlen].
  - destruct (split_last2 post Hlen) as (post0 & lo & hi & ->).
    change (pre ++ b :: post0 ++ [lo; hi])
      with (pre ++ (b :: post0) ++ [lo; hi]) in Hok.
    change (pre ++ b' :: post0 ++ [lo; hi])
      with (pre ++ (b' :: post0) ++ [lo; hi]).
    rewrite app_assoc in Hok |- *.
    apply crc_matches_app_inv in Hok.
    apply crc_matches_app_ne. rewrite <- Hok. intros E.
    apply get_crc_one_byte in E. now apply Hne.
  - destruct post as [|p [|q post]]; [| |cbn [length] in Hlen; lia].
    + destruct pre as [|q pre _] using rev_ind.
      * rewrite crc_matches_short in Hok by (cbn; lia). discriminate Hok.
      * rewrite <- app_assoc in Hok |- *. cbn [app] in Hok |- *.
        apply crc_matches_app_inv in Hok.
        apply crc_matches_app_ne. rewrite Hok. intros [= E]. now apply Hne.
    + apply crc_matches_app_inv in Hok.
      apply crc_matches_app_ne. rewrite Hok. intros [= E]. now apply Hne.
Qed.

(** ** Responses too short to carry a CRC *)

(** X3: a response of fewer than two bytes (nothing read before the timeout,
    or the one-byte [b"\x00"] of a dead port) never passes the CRC test, so
    it is reported as [(False, {"mode": mode})] and never parsed. *)
Theorem short_response_rejected
    (parse : bytes -> bytes -> result (gmap string pyval))
    (mode : string) (command response : bytes) :
  (length response < 2)%nat ->
  crc_matches response = Ok false /\
  validate_with parse mode command response
    = Ok (false, {["mode" := VStr mode]}).
Proof.
  intros Hlen. pose proof (crc_matches_short response Hlen) as E.
  split; [exact E|].
  unfold validate_with. rewrite E. result_simpl. reflexivity.
Qed.

(** ** Frames assembled for register spans *)

Lemma getitem_registers_addr (name : string) (addr : bytes) :
  getitem registers name = Ok addr ->
  exists r : byte, addr = [x00; r] /\ key_of_value registers [x00; r] = Some name.
Proof.
  intros H. destruct (getitem_registers_inv _ _ H) as (i & _ & _ & -> & _ & Hk).
  eauto.
Qed.

(** The read frames for any count that fits the byte-count field. *)
Lemma assemble_read_span (address : Z) (start : string) (r : byte) (n : Z)
    (data : data_arg) (lo1 hi1 lo2 hi2 : byte) :
  0 <= address < 256 ->
  getitem registers start = Ok [x00; r] ->
  0 <= n <= 127 ->
  get_crc [to_byte address; x03; x00; r; to_byte (n / 256); to_byte n]
    = Ok [lo1; hi1] ->
  get_crc ([to_byte address; x03; to_byte (n * 2)]
             ++ pack_words (replicate (Z.to_nat n) 0)) = Ok [lo2; hi2] ->
  assemble address "read" (RegSpan start n) data
    = Ok ([to_byte address; x03; x00; r; to_byte (n / 256); to_byte n; lo1; hi1],
          ([to_byte address; x03; to_byte (n * 2)]
             ++ pack_words (replicate (Z.to_nat n) 0)) ++ [lo2; hi2]).
Proof.
  intros Ha Hname Hn Hcrc1 Hcrc2.
  assert (Hn16 : 0 <= n < 65536) by lia.
  assert (Hn8 : 0 <= n * 2 < 256) by lia.
  unfold assemble.
  rewrite (proj1 (byte_unpack_pack _ Ha)). result_simpl.
  rewrite function_read. result_simpl.
  cbn [registers_key registers_1]. rewrite Hname. result_simpl.
  rewrite decide_True by reflexivity. result_simpl.
  rewrite (data_pack_ok _ Hn16). result_simpl.
  rewrite (proj1 (byte_unpack_pack _ Hn8)). result_simpl.
  rewrite iter_placeholders.
  cbn [app] in Hcrc1, Hcrc2 |- *. rewrite Hcrc1, Hcrc2. result_simpl. reflexivity.
Qed.

(** X4: for a catalogued starting register and any count from 0 to 127,
    whatever [data] is passed and whether or not the span stays inside the
    catalog, [send_command] in read mode builds an 8-byte command (address,
    0x03, register address, count, CRC) and an expected response of
    [5 + 2 * count] bytes (address, 0x03, byte count, zero placeholders, CRC),
    and both frames pass the CRC test applied to responses. *)
Theorem read_frames_well_formed (address : Z) (start : string) (addr : bytes)
    (n : Z) (data : data_arg) :
  0 <= address < 256 ->
  getitem registers start = Ok addr ->
  0 <= n <= 127 ->
  exists command expected_response crc1 crc2 : bytes,
    assemble address "read" (RegSpan start n) data
      = Ok (command, expected_response) /\
    command = [to_byte address; x03] ++ addr ++ [to_byte (n / 256); to_byte n]
                ++ crc1 /\
    expected_response
      = [to_byte address; x03; to_byte (n * 2)]
          ++ pack_words (replicate (Z.to_nat n) 0) ++ crc2 /\
    length command = 8%nat /\
    length expected_response = (5 + 2 * Z.to_nat n)%nat /\
    crc_matches command = Ok true /\
    crc_matches expected_response = Ok true.
Proof.
  intros Ha Hname Hn.
  destruct (getitem_registers_addr _ _ Hname) as (r & -> & _).
  destruct (get_crc_two [to_byte address; x03; x00; r; to_byte (n / 256); to_byte n])
    as (lo1 & hi1 & Hcrc1).
  destruct (get_crc_two ([to_byte address; x03; to_byte (n * 2)]
                           ++ pack_words (replicate (Z.to_nat n) 0)))
    as (lo2 & hi2 & Hcrc2).
  eexists _, _, [lo1; hi1], [lo2; hi2].
  split; [exact (assemble_read_span _ _ _ _ data _ _ _ _ Ha Hname Hn Hcrc1 Hcrc2)|].
  split; [reflexivity|].
  split; [now rewrite <- app_assoc|].
  split; [reflexivity|].
  split.
  { rewrite !length_app, length_pack_words, length_replicate. cbn [length]. lia. }
  split.
  - exact (crc_matches_app
             [to_byte address; x03; x00; r; to_byte (n / 256); to_byte n] _ _ Hcrc1).
  - exact (crc_matches_app _ _ _ Hcrc2).
Qed.

(** [pack_items] reads only the items it is asked for. *)
Lemma pack_items_prefix (vs extra : list Z) (i k : nat) (command : bytes) :
  (i + k <= length vs)%nat ->
  pack_items (DataSeq (vs ++ extra)) i k command
    = pack_items (DataSeq vs) i k command.
Proof.
  revert i command. induction k as [|k IH]; intros i command Hlen; [reflexivity|].
  cbn [pack_items data_getitem].
  rewrite lookup_app_l by lia.
  destruct (vs !! i) as [v|]; result_simpl; [|reflexivity].
  destruct (data_packer.pack v) as [p|e]; result_simpl; [|reflexivity].
  apply IH. lia.
Qed.

(** Asked for more items than the sequence holds, [pack_items] runs off its
    end. *)
Lemma pack_items_short (pre vs : list Z) (k : nat) (command : bytes) :
  Forall (fun v => 0 <= v < 65536) vs ->
  (length vs < k)%nat ->
  pack_items (DataSeq (pre ++ vs)) (length pre) k command = Raise IndexError.
Proof.
  revert pre k command. induction vs as [|v vs IH]; intros pre k command Hvs Hlen.
  - destruct k as [|k]; [cbn [length] in Hlen; lia|].
    cbn [pack_items data_getitem].
    rewrite lookup_ge_None_2 by (rewrite length_app; cbn [length]; lia).
    result_simpl. reflexivity.
  - destruct k as [|k]; [cbn [length] in Hlen; lia|].
    apply Forall_cons in Hvs as [Hv Hvs].
    cbn [pack_items data_getitem].
    rewrite lookup_app_r by lia. rewrite Nat.sub_diag. cbn [lookup list_lookup].
    result_simpl. rewrite (data_pack_ok _ Hv). result_simpl.
    replace (pre ++ v :: vs) with ((pre ++ [v]) ++ vs) by now rewrite <- app_assoc.
    replace (S (length pre)) with (length (pre ++ [v]))
      by (rewrite length_app; cbn [length]; lia).
    apply IH; [exact Hvs|cbn [length] in Hlen; lia].
Qed.

(** The multiple_write frames for any count that fits the byte-count field. *)
Lemma assemble_multiple_write_span (address : Z) (start : string) (r : byte)
    (vs : list Z) (lo1 hi1 lo2 hi2 : byte) :
  let n := Z.of_nat (length vs) in
  0 <= address < 256 ->
  getitem registers start = Ok [x00; r] ->
  (length vs <= 127)%nat ->
  Forall (fun v => 0 <= v < 65536) vs ->
  get_crc ([to_byte address; x10; x00; r;
            to_byte (n / 256); to_byte n; to_byte (2 * n)] ++ pack_words vs)
    = Ok [lo1; hi1] ->
  get_crc [to_byte address; x10; x00; r; to_byte (n / 256); to_byte n]
    = Ok [lo2; hi2] ->
  assemble address "multiple_write" (RegSpan start n) (DataSeq vs)
    = Ok (([to_byte address; x10; x00; r;
            to_byte (n / 256); to_byte n; to_byte (2 * n)] ++ pack_words vs)
            ++ [lo1; hi1],
          [to_byte address; x10; x00; r; to_byte (n / 256); to_byte n; lo2; hi2]).
Proof.
  intros n Ha Hn Hlen Hvs Hcrc1 Hcrc2.
  assert (Hn16 : 0 <= n < 65536) by (unfold n; lia).
  assert (Hn8 : 0 <= 2 * n < 256) by (unfold n; lia).
  unfold assemble.
  rewrite (proj1 (byte_unpack_pack _ Ha)). result_simpl.
  rewrite function_multiple_write. result_simpl.
  cbn [registers_key registers_1]. rewrite Hn. result_simpl.
  rewrite !(decide_False (P := "multiple_write" = "read")) by discriminate.
  rewrite !(decide_False (P := "multiple_write" = "single_write")) by discriminate.
  rewrite decide_True by reflexivity. result_simpl.
  rewrite (data_pack_ok _ Hn16). result_simpl.
  rewrite (proj1 (byte_unpack_pack _ Hn8)). result_simpl.
  unfold n at 3. rewrite Nat2Z.id.
  rewrite (pack_items_words [] vs _ Hvs). result_simpl.
  cbn [app] in Hcrc1, Hcrc2 |- *. rewrite Hcrc1, Hcrc2. result_simpl. reflexivity.
Qed.

(** X5: for a catalogued starting register and up to 127 values of 16 bits,
    [send_command] in multiple_write mode builds a command of
    [9 + 2 * count] bytes (address, 0x10, register address, count, byte
    count, the values big-endian, CRC) and an 8-byte expected response that
    repeats the first six bytes of the command before its own CRC; both
    frames pass the CRC test applied to responses. *)
Theorem multiple_write_frames_well_formed (address : Z) (start : string)
    (addr : bytes) (vs : list Z) :
  let n := Z.of_nat (length vs) in
  0 <= address < 256 ->
  getitem registers start = Ok addr ->
  (length vs <= 127)%nat ->
  Forall (fun v => 0 <= v < 65536) vs ->
  exists command expected_response crc1 crc2 : bytes,
    assemble address "multiple_write" (RegSpan start n) (DataSeq vs)
      = Ok (command, expected_response) /\
    command = [to_byte address; x10] ++ addr
                ++ [to_byte (n / 256); to_byte n; to_byte (2 * n)]
                ++ pack_words vs ++ crc1 /\
    expected_response = take 6 command ++ crc2 /\
    length command = (9 + 2 * length vs)%nat /\
    length expected_response = 8%nat /\
    command_payload command = pack_words vs /\
    crc_matches command = Ok true /\
    crc_matches expected_response = Ok true.
Proof.
  intros n Ha Hname Hlen Hvs.
  destruct (getitem_registers_addr _ _ Hname) as (r & -> & _).
  destruct (get_crc_two ([to_byte address; x10; x00; r;
                          to_byte (n / 256); to_byte n; to_byte (2 * n)]
                           ++ pack_words vs)) as (lo1 & hi1 & Hcrc1).
  destruct (get_crc_two [to_byte address; x10; x00; r; to_byte (n / 256); to_byte n])
    as (lo2 & hi2 & Hcrc2).
  eexists _, _, [lo1; hi1], [lo2; hi2].
  split; [exact (assemble_multiple_write_span _ _ _ _ _ _ _ _
                   Ha Hname Hlen Hvs Hcrc1 Hcrc2)|].
  split; [now rewrite <- app_assoc|].
  split; [reflexivity|].
  split.
  { rewrite !length_app, length_pack_words. cbn [length]. lia. }
  split; [reflexivity|].
  split.
  { unfold command_payload. rewrite drop_last2_app. reflexivity. }
  split.
  - exact (crc_matches_app _ _ _ Hcrc1).
  - exact (crc_matches_app
             [to_byte address; x10; x00; r; to_byte (n / 256); to_byte n] _ _ Hcrc2).
Qed.

Lemma data_pack_raise (v : Z) :
  ~ 0 <= v < 65536 -> data_packer.pack v = Raise struct_error.
Proof. intros Hv. unfold data_packer.pack. now rewrite decide_False. Qed.

(** X6: a register count outside 0..127 is refused with [struct.error] in
    read and in multiple_write mode, before [data] is looked at: the count
    must fit 16 bits and twice the count must fit the one-byte byte count. *)
Theorem span_count_out_of_range (address : Z) (mode : string) (start : string)
    (addr : bytes) (n : Z) (data : data_arg) :
  0 <= address < 256 ->
  mode = "read" \/ mode = "multiple_write" ->
  getitem registers start = Ok addr ->
  ~ 0 <= n <= 127 ->
  assemble address mode (RegSpan start n) data = Raise struct_error.
Proof.
  intros Ha Hmode Hname Hn.
  unfold assemble.
  rewrite (proj1 (byte_unpack_pack _ Ha)). result_simpl.
  destruct Hmode as [-> | ->].
  - rewrite function_read. result_simpl.
    cbn [registers_key registers_1]. rewrite Hname. result_simpl.
    rewrite decide_True by reflexivity. result_simpl.
    destruct (decide (0 <= n < 65536)) as [H16|H16].
    + rewrite (data_pack_ok _ H16). result_simpl.
      unfold byte_packer.pack. rewrite decide_False by lia.
      result_simpl. reflexivity.
    + rewrite (data_pack_raise _ H16). result_simpl. reflexivity.
  - rewrite function_multiple_write. result_simpl.
    cbn [registers_key registers_1]. rewrite Hname. result_simpl.
    rewrite !(decide_False (P := "multiple_write" = "read")) by discriminate.
    rewrite !(decide_False (P := "multiple_write" = "single_write")) by discriminate.
    rewrite decide_True by reflexivity. result_simpl.
    destruct (decide (0 <= n < 65536)) as [H16|H16].
    + rewrite (data_pack_ok _ H16). result_simpl.
      unfold byte_packer.pack. rewrite decide_False by lia.
      result_simpl. reflexivity.
    + rewrite (data_pack_raise _ H16). result_simpl. reflexivity.
Qed.

(** X7: in multiple_write mode only the first [count] values of [data] are
    packed; whatever follows them in the sequence is dropped without notice,
    so the outcome is that of the call without it. *)
Theorem multiple_write_surplus_ignored (address : Z) (start : string) (n : Z)
    (vs extra : list Z) :
  (Z.to_nat n <= length vs)%nat ->
  assemble address "multiple_write" (RegSpan start n) (DataSeq (vs ++ extra))
    = assemble address "multiple_write" (RegSpan start n) (DataSeq vs).
Proof.
  intros Hlen. unfold assemble.
  destruct (byte_packer.pack address) as [a|e]; result_simpl; [|reflexivity].
  rewrite function_multiple_write. result_simpl.
  cbn [registers_key registers_1].
  destruct (getitem registers start) as [r|e]; result_simpl; [|reflexivity].
  rewrite !(decide_False (P := "multiple_write" = "read")) by discriminate.
  rewrite !(decide_False (P := "multiple_write" = "single_write")) by discriminate.
  rewrite decide_True by reflexivity. result_simpl.
  destruct (data_packer.pack n) as [p|e]; result_simpl; [|reflexivity].
  destruct (byte_packer.pack (2 * n)) as [q|e]; result_simpl; [|reflexivity].
  rewrite pack_items_prefix by lia. reflexivity.
Qed.

(** X8: in multiple_write mode a sequence of 16-bit values shorter than the
    count makes [data[i]] run off its end: the call raises [IndexError]
    and no frame is produced. *)
Theorem multiple_write_too_few_values (address : Z) (start : string)
    (addr : bytes) (n : Z) (vs : list Z) :
  0 <= address < 256 ->
  getitem registers start = Ok addr ->
  0 <= n <= 127 ->
  Forall (fun v => 0 <= v < 65536) vs ->
  (length vs < Z.to_nat n)%nat ->
  assemble address "multiple_write" (RegSpan start n) (DataSeq vs)
    = Raise IndexError.
Proof.
  intros Ha Hname Hn Hvs Hlen.
  assert (Hn16 : 0 <= n < 65536) by lia.
  assert (Hn8 : 0 <= 2 * n < 256) by lia.
  unfold assemble.
  rewrite (proj1 (byte_unpack_pack _ Ha)). result_simpl.
  rewrite function_multiple_write. result_simpl.
  cbn [registers_key registers_1]. rewrite Hname. result_simpl.
  rewrite !(decide_False (P := "multiple_write" = "read")) by discriminate.
  rewrite !(decide_False (P := "multiple_write" = "single_write")) by discriminate.
  rewrite decide_True by reflexivity. result_simpl.
  rewrite (data_pack_ok _ Hn16). result_simpl.
  rewrite (proj1 (byte_unpack_pack _ Hn8)). result_simpl.
  rewrite (pack_items_short [] vs _ _ Hvs Hlen). result_simpl. reflexivity.
Qed.

(** X9: in multiple_write mode with a count of at least one, a [data] that
    is not a sequence ([None], the default, or a single integer) makes
    [data[0]] raise [TypeError]. *)
Theorem multiple_write_data_not_sequence (address : Z) (start : string)
    (addr : bytes) (n : Z) (data : data_arg) :
  0 <= address < 256 ->
  getitem registers start = Ok addr ->
  1 <= n <= 127 ->
  (forall vs : list Z, data <> DataSeq vs) ->
  assemble address "multiple_write" (RegSpan start n) data = Raise TypeError.
Proof.
  intros Ha Hname Hn Hdata.
  assert (Hn16 : 0 <= n < 65536) by lia.
  assert (Hn8 : 0 <= 2 * n < 256) by lia.
  unfold assemble.
  rewrite (proj1 (byte_unpack_pack _ Ha)). result_simpl.
  rewrite function_multiple_write. result_simpl.
  cbn [registers_key registers_1]. rewrite Hname. result_simpl.
  rewrite !(decide_False (P := "multiple_write" = "read")) by discriminate.
  rewrite !(decide_False (P := "multiple_write" = "single_write")) by discriminate.
  rewrite decide_True by reflexivity. result_simpl.
  rewrite (data_pack_ok _ Hn16). result_simpl.
  rewrite (proj1 (byte_unpack_pack _ Hn8)). result_simpl.
  destruct (Z.to_nat n) as [|k] eqn:Ek; [lia|].
  cbn [pack_items].
  assert (E : data_getitem data 0 = Raise TypeError).
  { destruct data as [|v|vs]; [reflexivity|reflexivity|].
    now destruct (Hdata vs). }
  rewrite E. result_simpl. reflexivity.
Qed.

(** X10: in single_write mode a value that does not fit 16 bits unsigned, or
    a [data] that is not an integer at all, is refused with [struct.error];
    the value is neither clamped nor wrapped. *)
Theorem single_write_value_refused (address : Z) (name : string) (addr : bytes)
    (data : data_arg) :
  0 <= address < 256 ->
  getitem registers name = Ok addr ->
  (forall v : Z, data = DataInt v -> ~ 0 <= v < 65536) ->
  assemble address "single_write" (RegName name) data = Raise struct_error.
Proof.
  intros Ha Hname Hdata.
  unfold assemble.
  rewrite (proj1 (byte_unpack_pack _ Ha)). result_simpl.
  rewrite function_single_write. result_simpl.
  cbn [registers_key]. rewrite Hname. result_simpl.
  rewrite decide_False by discriminate. rewrite decide_True by reflexivity.
  assert (E : pack_data data = Raise struct_error).
  { destruct data as [|v|vs]; [reflexivity| |reflexivity].
    cbn [pack_data]. apply data_pack_raise. now apply Hdata. }
  rewrite E. result_simpl. reflexivity.
Qed.

(** ** Replies the parser meets *)

Lemma key_of_value_not_in (d : list (string * bytes)) (x : bytes) :
  x ∉ d.*2 -> key_of_value d x = None.
Proof.
  induction d as [|[k v] d IH]; intros Hx; [reflexivity|].
  cbn [key_of_value]. rewrite fmap_cons, not_elem_of_cons in Hx.
  destruct Hx as [Hne Hx].
  rewrite decide_False by (cbn in Hne; congruence). now apply IH.
Qed.

Lemma words_of_enough (k : nat) (payload : bytes) :
  (2 * k <= length payload)%nat -> (k <= length (words_of payload))%nat.
Proof.
  revert payload. induction k as [|k IH]; intros payload Hlen; [lia|].
  destruct payload as [|hi [|lo payload]]; cbn [length] in Hlen; try lia.
  cbn [words_of length]. apply le_n_S. apply IH. lia.
Qed.

(** When the payload is shorter than the byte count announces, the read
    branch raises. *)
Lemma parse_read_short (c0 c1 : byte) (tail : bytes) (a bc : byte) (payload : bytes)
    (c_lo c_hi : byte) (start : string) (i : nat) :
  index register_order start = Ok i ->
  (length payload < 2 * Z.to_nat (Z_of_byte bc `div` 2))%nat ->
  __parse_response (c0 :: c1 :: x00 :: to_byte (Z.of_nat i) :: tail)
    (([a; x03; bc] ++ payload) ++ [c_lo; c_hi])
    = Raise struct_error.
Proof.
  intros Hidx Hlen.
  destruct (index_registers_inv _ _ Hidx) as (_ & _ & Hkey & _).
  unfold __parse_response.
  rewrite drop_last2_app.
  set (r_lo := to_byte (Z.of_nat i)) in *.
  change (take 1 (([a; x03; bc] ++ payload) ++ [c_lo; c_hi])) with [a].
  change (slice 1 2 (([a; x03; bc] ++ payload) ++ [c_lo; c_hi])) with [x03].
  change (slice 2 4 (c0 :: c1 :: x00 :: r_lo :: tail))
    with (take 2 (x00 :: r_lo :: tail)).
  change (take 2 (x00 :: r_lo :: tail)) with (x00 :: r_lo :: take 0 tail).
  rewrite take_0.
  change (drop 2 ([a; x03; bc] ++ payload)) with (bc :: payload).
  change (take 1 (bc :: payload)) with (bc :: take 0 payload).
  rewrite take_0.
  change (drop 1 (bc :: payload)) with payload.
  cbn [byte_packer.unpack]. result_simpl.
  rewrite function_code_read.
  rewrite decide_True by reflexivity.
  rewrite Hkey. cbn [order_index]. rewrite Hidx. result_simpl.
  rewrite unpack_items_short by exact Hlen. result_simpl. reflexivity.
Qed.

(** X11: a CRC-valid response with function code 0x03 is decoded as a read
    reply whatever mode was requested: the register count is half the byte
    count (rounded down), the names are the window of that many names that
    starts at the register named in bytes 2-3 of the command, cut off at the
    end of the catalog, and the data are that many 16-bit big-endian words
    of the payload; payload bytes beyond them are ignored. *)
Theorem read_reply_decoded (mode : string) (c0 c1 : byte) (tail : bytes)
    (start : string) (addr : bytes) (a bc : byte) (payload : bytes)
    (lo hi : byte) :
  let count := Z.to_nat (Z_of_byte bc `div` 2) in
  getitem registers start = Ok addr ->
  crc_matches (([a; x03; bc] ++ payload) ++ [lo; hi]) = Ok true ->
  (2 * count <= length payload)%nat ->
  exists i : nat,
    index register_order start = Ok i /\
    validate mode ([c0; c1] ++ addr ++ tail)
        (([a; x03; bc] ++ payload) ++ [lo; hi])
      = Ok (true,
            <["data" := VInts (take count (words_of payload))]>
              (<["registers" := VStrs (take count (drop i register_order))]>
                (<["mode" := VStr "read"]>
                  (<["address" := VInt (Z_of_byte a)]> ∅)))) /\
    length (take count (words_of payload)) = count /\
    length (take count (drop i register_order)) = (count `min` (13 - i))%nat.
Proof.
  intros count Hname Hcrc Hlen.
  destruct (getitem_registers_inv _ _ Hname) as (i & Hidx & _ & -> & _).
  exists i. split; [exact Hidx|]. split; [|split].
  - unfold validate, validate_with. rewrite Hcrc. result_simpl.
    change ([c0; c1] ++ [x00; to_byte (Z.of_nat i)] ++ tail)
      with (c0 :: c1 :: x00 :: to_byte (Z.of_nat i) :: tail).
    rewrite (parse_read c0 c1 tail a bc payload lo hi start i Hidx Hlen).
    result_simpl. reflexivity.
  - rewrite length_take. pose proof (words_of_enough _ _ Hlen). lia.
  - rewrite length_take, length_drop. reflexivity.
Qed.

(** X12: a CRC-valid read reply whose payload is shorter than its byte count
    announces is not reported as a failure: unpacking runs off the payload
    and [send_command]'s validation raises [struct.error]. *)
Theorem read_reply_short_payload (mode : string) (c0 c1 : byte) (tail : bytes)
    (start : string) (addr : bytes) (a bc : byte) (payload : bytes)
    (lo hi : byte) :
  getitem registers start = Ok addr ->
  crc_matches (([a; x03; bc] ++ payload) ++ [lo; hi]) = Ok true ->
  (length payload < 2 * Z.to_nat (Z_of_byte bc `div` 2))%nat ->
  validate mode ([c0; c1] ++ addr ++ tail)
      (([a; x03; bc] ++ payload) ++ [lo; hi])
    = Raise struct_error.
Proof.
  intros Hname Hcrc Hlen.
  destruct (getitem_registers_inv _ _ Hname) as (i & Hidx & _ & -> & _).
  unfold validate, validate_with. rewrite Hcrc. result_simpl.
  change ([c0; c1] ++ [x00; to_byte (Z.of_nat i)] ++ tail)
    with (c0 :: c1 :: x00 :: to_byte (Z.of_nat i) :: tail).
  rewrite (parse_read_short c0 c1 tail a bc payload lo hi start i Hidx Hlen).
  result_simpl. reflexivity.
Qed.

(** X13: a CRC-valid multiple_write reply that echoes a register address the
    catalog does not hold raises [ValueError]: the address stays a [bytes]
    object, which [register_order.index] does not find. *)
Theorem multiple_write_reply_unknown_register (mode : string) (command : bytes)
    (a r1 r2 n_hi n_lo lo hi : byte) :
  [r1; r2] ∉ registers.*2 ->
  crc_matches [a; x10; r1; r2; n_hi; n_lo; lo; hi] = Ok true ->
  validate mode command [a; x10; r1; r2; n_hi; n_lo; lo; hi] = Raise ValueError.
Proof.
  intros Hr Hcrc.
  unfold validate, validate_with. rewrite Hcrc. result_simpl.
  unfold __parse_response.
  change (take 1 [a; x10; r1; r2; n_hi; n_lo; lo; hi]) with [a].
  change (slice 1 2 [a; x10; r1; r2; n_hi; n_lo; lo; hi]) with [x10].
  change (drop 2 (drop_last2 [a; x10; r1; r2; n_hi; n_lo; lo; hi]))
    with [r1; r2; n_hi; n_lo].
  change (take 2 [r1; r2; n_hi; n_lo]) with [r1; r2].
  change (drop 2 [r1; r2; n_hi; n_lo]) with [n_hi; n_lo].
  cbn [byte_packer.unpack data_packer.unpack]. result_simpl.
  rewrite function_code_multiple_write.
  rewrite !(decide_False (P := Some "multiple_write" = Some "read")) by discriminate.
  rewrite !(decide_False (P := Some "multiple_write" = Some "single_write"))
    by discriminate.
  rewrite decide_True by reflexivity.
  rewrite (key_of_value_not_in _ _ Hr). cbn [order_index]. result_simpl.
  reflexivity.
Qed.


(** ** Transport session, continued *)

Section SessionFurther.
Context {World Port : Type} `{!Serial World Port}.
Implicit Types (s : session World Port).

Lemma is_port_alive_none s :
  port s = None -> is_port_alive s = (Ok false, s).
Proof.
  intros Hp. unfold is_port_alive.
  rewrite (M_bind_Ok _ _ s None s); [reflexivity|].
  unfold get_port. now rewrite Hp.
Qed.

Lemma is_port_alive_healthy s (p : Port) (k : nat) (w1 : World) :
  port s = Some p ->
  serial_in_waiting p (world s) = (Some k, w1) ->
  is_port_alive s
    = (Ok true, Session w1 (Some p) (trace s ++ [EvProbe p])).
Proof.
  intros Hp Hw. unfold is_port_alive.
  rewrite (M_bind_Ok _ _ s (Some p) s) by (unfold get_port; now rewrite Hp).
  rewrite (M_bind_Ok _ _ s (Some k) (Session w1 (port s) (trace s ++ [EvProbe p])))
    by (unfold call_in_waiting; now rewrite Hw).
  rewrite Hp. reflexivity.
Qed.

Lemma is_port_alive_fault s (p : Port) (w1 : World) :
  port s = Some p ->
  serial_in_waiting p (world s) = (None, w1) ->
  is_port_alive s
    = (Ok false,
       Session (serial_close p w1) None ((trace s ++ [EvProbe p]) ++ [EvClose p])).
Proof.
  intros Hp Hw. unfold is_port_alive.
  rewrite (M_bind_Ok _ _ s (Some p) s) by (unfold get_port; now rewrite Hp).
  rewrite (M_bind_Ok _ _ s None (Session w1 (port s) (trace s ++ [EvProbe p])))
    by (unfold call_in_waiting; now rewrite Hw).
  erewrite M_bind_Ok; [reflexivity|].
  rewrite disconnect_port_run. cbn [port world trace]. rewrite Hp. reflexivity.
Qed.

(** [__send] on a port that answers the probe, whatever the write and the
    read do. *)
Lemma send_probed s (p : Port) (k : nat) (w1 : World) (command : bytes)
    (byte_length : nat) :
  port s = Some p ->
  serial_in_waiting p (world s) = (Some k, w1) ->
  __send command byte_length s =
    match serial_write p command w1 with
    | (Raise e, w2) =>
        (Raise e, Session w2 (Some p) (trace s ++ [EvProbe p; EvWrite p command]))
    | (Ok _, w2) =>
        let '(r, w3) := serial_read p byte_length w2 in
        (r, Session w3 (Some p)
              (trace s ++ [EvProbe p; EvWrite p command; EvRead p byte_length]))
    end.
Proof.
  intros Hp Hw. unfold __send.
  rewrite (M_bind_Ok _ _ _ _ _ (is_port_alive_healthy s p k w1 Hp Hw)).
  rewrite (M_bind_Ok _ _ _ (Some p) (Session w1 (Some p) (trace s ++ [EvProbe p])))
    by reflexivity.
  destruct (serial_write p command w1) as [[u|e] w2] eqn:Ew.
  - erewrite M_bind_Ok
      by (unfold call_write; cbn [world port trace]; rewrite Ew; reflexivity).
    unfold call_read. cbn [world port trace].
    destruct (serial_read p byte_length w2) as [r w3].
    now rewrite <- !app_assoc.
  - erewrite M_bind_Raise
      by (unfold call_write; cbn [world port trace]; rewrite Ew; reflexivity).
    now rewrite <- !app_assoc.
Qed.

Lemma send_live s (p : Port) (k : nat) (w1 w2 w3 : World) (command r : bytes)
    (byte_length : nat) :
  port s = Some p ->
  serial_in_waiting p (world s) = (Some k, w1) ->
  serial_write p command w1 = (Ok (), w2) ->
  serial_read p byte_length w2 = (Ok r, w3) ->
  __send command byte_length s
    = (Ok r,
       Session w3 (Some p)
         (trace s ++ [EvProbe p; EvWrite p command; EvRead p byte_length])).
Proof.
  intros Hp Hw Ewrite Eread.
  rewrite (send_probed s p k w1 _ _ Hp Hw), Ewrite, Eread. reflexivity.
Qed.

(** X15: [is_port_alive] never raises, and its answer always agrees with the
    session it leaves behind: [True] exactly when a port is still held
    afterwards.  With no port it calls nothing; a [True] answer leaves the
    port that was held in place. *)
Theorem is_port_alive_agrees_with_port s :
  exists (b : bool) (s' : session World Port),
    is_port_alive s = (Ok b, s') /\
    b = bool_decide (is_Some (port s')) /\
    (b = true -> port s' = port s) /\
    (port s = None -> s' = s).
Proof.
  destruct (port s) as [p|] eqn:Hp.
  - destruct (serial_in_waiting p (world s)) as [[k|] w1] eqn:Hw.
    + eexists true, _. split; [exact (is_port_alive_healthy s p k w1 Hp Hw)|].
      cbn [port]. split; [|split; [reflexivity|discriminate]].
      symmetry. apply bool_decide_eq_true_2. eauto.
    + eexists false, _. split; [exact (is_port_alive_fault s p w1 Hp Hw)|].
      cbn [port]. split; [|split; discriminate].
      symmetry. apply bool_decide_eq_false_2. intros [? [=]].
  - eexists false, s. split; [exact (is_port_alive_none s Hp)|].
    rewrite Hp. split; [|split; [discriminate|reflexivity]].
    symmetry. apply bool_decide_eq_false_2. intros [? [=]].
Qed.

(** X16: [disconnect_port] closes the held port exactly once and forgets it;
    on a session without a port it does nothing, so a second call in a row
    changes nothing and closes nothing. *)
Theorem disconnect_port_idempotent s :
  exists s1 : session World Port,
    disconnect_port s = (Ok (), s1) /\
    port s1 = None /\
    trace s1 = trace s ++ match port s with Some p => [EvClose p] | None => [] end /\
    disconnect_port s1 = (Ok (), s1) /\
    (disconnect_port;; disconnect_port) s = disconnect_port s.
Proof.
  pose proof (disconnect_port_run s) as E.
  set (s1 := match port s with
             | Some p => Session (serial_close p (world s)) None (trace s ++ [EvClose p])
             | None => s
             end) in *.
  assert (Hp1 : port s1 = None).
  { unfold s1. destruct (port s) eqn:Hp; [reflexivity|exact Hp]. }
  assert (E1 : disconnect_port s1 = (Ok (), s1)).
  { rewrite disconnect_port_run, Hp1. reflexivity. }
  exists s1. split; [exact E|]. split; [exact Hp1|]. split; [|split].
  - unfold s1. destruct (port s); cbn [trace]; [reflexivity|now rewrite app_nil_r].
  - exact E1.
  - rewrite (M_bind_Ok _ _ _ _ _ E). rewrite E1, E. reflexivity.
Qed.

(** X17: on a port that answers the probe [__send] writes the whole
    command once and then reads [byte_length] bytes once.  It returns the
    bytes read; an exception of the write is raised by [__send] before any
    read, and an exception of the read is raised after the write.  In all
    three cases the port stays held. *)
Theorem send_on_live_port s (p : Port) (k : nat) (w1 : World) (command : bytes)
    (byte_length : nat) :
  port s = Some p ->
  serial_in_waiting p (world s) = (Some k, w1) ->
  __send command byte_length s =
    match serial_write p command w1 with
    | (Raise e, w2) =>
        (Raise e, Session w2 (Some p) (trace s ++ [EvProbe p; EvWrite p command]))
    | (Ok _, w2) =>
        match serial_read p byte_length w2 with
        | (Ok r, w3) =>
            (Ok r, Session w3 (Some p)
                     (trace s ++ [EvProbe p; EvWrite p command;
                                  EvRead p byte_length]))
        | (Raise e, w3) =>
            (Raise e, Session w3 (Some p)
                        (trace s ++ [EvProbe p; EvWrite p command;
                                     EvRead p byte_length]))
        end
    end.
Proof.
  intros Hp Hw. rewrite (send_probed s p k w1 _ _ Hp Hw).
  destruct (serial_write p command w1) as [[u|e] w2]; [|reflexivity].
  destruct (serial_read p byte_length w2) as [[r|e] w3]; reflexivity.
Qed.

(** X18: [__send] raises only what [port.write] or [port.read] raised on a
    port that answered the probe, and then keeps the port (the port cannot
    be missing once [is_port_alive] has answered [True]).  When it returns
    and leaves the session without a port, what it returned is the one byte
    [b"\x00"] and nothing was written or read. *)
Theorem send_raises_only_io_faults s (command : bytes) (byte_length : nat) :
  match __send command byte_length s with
  | (Ok r, s') =>
      port s' = None ->
      r = [x00] /\
      Forall (fun ev => forall c n q, ev <> EvWrite q c /\ ev <> EvRead q n)
        (drop (length (trace s)) (trace s'))
  | (Raise e, s') =>
      exists (p : Port) (k : nat) (w1 : World),
        port s = Some p /\
        serial_in_waiting p (world s) = (Some k, w1) /\
        port s' = Some p /\
        ((serial_write p command w1).1 = Raise e \/
         exists w2 : World,
           serial_write p command w1 = (Ok (), w2) /\
           (serial_read p byte_length w2).1 = Raise e)
  end.
Proof.
  destruct (port s) as [p|] eqn:Hp.
  - destruct (serial_in_waiting p (world s)) as [[k|] w1] eqn:Hw.
    + rewrite (send_probed s p k w1 _ _ Hp Hw).
      destruct (serial_write p command w1) as [[[]|e] w2] eqn:Ew.
      * destruct (serial_read p byte_length w2) as [[r|e] w3] eqn:Er.
        -- cbn [port]. discriminate.
        -- exists p, k, w1. split; [reflexivity|]. split; [exact Hw|].
           split; [reflexivity|]. right. exists w2. rewrite Ew, Er. now split.
      * exists p, k, w1. split; [reflexivity|]. split; [exact Hw|].
        split; [reflexivity|]. left. now rewrite Ew.
    + assert (E : __send command byte_length s
                  = (Ok [x00],
                     Session (serial_close p w1) None
                       ((trace s ++ [EvProbe p]) ++ [EvClose p]))).
      { unfold __send.
        rewrite (M_bind_Ok _ _ _ _ _ (is_port_alive_fault s p w1 Hp Hw)).
        reflexivity. }
      rewrite E. intros _. split; [reflexivity|]. cbn [trace].
      rewrite <- app_assoc, drop_app_length. cbn [app].
      repeat (apply Forall_cons_2; [intros c n q; split; discriminate|]).
      apply Forall_nil_2.
  - rewrite (send_disconnected s _ _ Hp).
    intros _. split; [reflexivity|].
    rewrite drop_ge by lia. apply Forall_nil_2.
Qed.

(** X19: on a session without a port, a call whose frames assemble makes no
    serial call at all and returns [(False, {"mode": mode})]: the one-byte
    answer of [__send] cannot pass the CRC test. *)
Theorem send_command_disconnected
    (parse : bytes -> bytes -> result (gmap string pyval))
    s (address : Z) (mode : string) (regs : registers_arg) (data : data_arg)
    (command expected_response : bytes) :
  port s = None ->
  assemble address mode regs data = Ok (command, expected_response) ->
  send_command_with parse address mode regs data s
    = (Ok (false, {["mode" := VStr mode]}), s).
Proof.
  intros Hp Hasm. unfold send_command_with.
  rewrite (M_bind_Ok _ _ s (command, expected_response) s)
    by (rewrite lift_run, Hasm; reflexivity).
  cbv beta iota.
  rewrite (M_bind_Ok _ _ _ _ _ (send_disconnected s command _ Hp)).
  rewrite lift_run. unfold validate_with.
  rewrite (crc_matches_short [x00]) by (cbn [length]; lia).
  result_simpl. reflexivity.
Qed.

(** X20: any error raised while the frames are assembled (bad address, mode,
    register, count or data) is raised by [send_command] as it is, with the
    session untouched: the port is not probed and nothing is written. *)
Theorem send_command_assembly_error
    (parse : bytes -> bytes -> result (gmap string pyval))
    s (address : Z) (mode : string) (regs : registers_arg) (data : data_arg)
    (e : exn) :
  assemble address mode regs data = Raise e ->
  send_command_with parse address mode regs data s = (Raise e, s).
Proof.
  intros Hasm. unfold send_command_with.
  apply M_bind_Raise. rewrite lift_run, Hasm. reflexivity.
Qed.

(** X21: on a port that answers the probe, a call whose frames assemble
    probes once, writes the command frame once and reads once, asking for
    exactly as many bytes as the expected response is long.  Its outcome is
    the validation of the bytes read; an exception of the write or of the
    read is raised by [send_command] as it is.  The session has advanced and
    keeps its port in every case, also when the validation raises. *)
Theorem send_command_on_live_port
    (parse : bytes -> bytes -> result (gmap string pyval))
    s (p : Port) (k : nat) (w1 : World)
    (address : Z) (mode : string) (regs : registers_arg) (data : data_arg)
    (command expected_response : bytes) :
  port s = Some p ->
  serial_in_waiting p (world s) = (Some k, w1) ->
  assemble address mode regs data = Ok (command, expected_response) ->
  let n := length expected_response in
  send_command_with parse address mode regs data s =
    match serial_write p command w1 with
    | (Raise e, w2) =>
        (Raise e, Session w2 (Some p) (trace s ++ [EvProbe p; EvWrite p command]))
    | (Ok _, w2) =>
        match serial_read p n w2 with
        | (Ok response, w3) =>
            (validate_with parse mode command response,
             Session w3 (Some p)
               (trace s ++ [EvProbe p; EvWrite p command; EvRead p n]))
        | (Raise e, w3) =>
            (Raise e,
             Session w3 (Some p)
               (trace s ++ [EvProbe p; EvWrite p command; EvRead p n]))
        end
    end.
Proof.
  intros Hp Hw Hasm n. unfold send_command_with.
  rewrite (M_bind_Ok _ _ s (command, expected_response) s)
    by (rewrite lift_run, Hasm; reflexivity).
  cbv beta iota.
  pose proof (send_probed s p k w1 command n Hp Hw) as Hsend.
  destruct (serial_write p command w1) as [[u|e] w2].
  - destruct (serial_read p n w2) as [[response|e] w3].
    + rewrite (M_bind_Ok _ _ _ _ _ Hsend). reflexivity.
    + rewrite (M_bind_Raise _ _ _ _ _ Hsend). reflexivity.
  - rewrite (M_bind_Raise _ _ _ _ _ Hsend). reflexivity.
Qed.

(** X22: a complete single write.  On a port that answers the probe, when
    the device echoes the command frame, [send_command] returns [True] with
    the address, the mode, the register's name and the value that was
    written, after one probe, one write of the frame and one read of its 8
    bytes. *)
Theorem single_write_acknowledged s (p : Port) (k : nat) (w1 : World)
    (address : Z) (name : string) (addr : bytes) (value : Z) :
  port s = Some p ->
  serial_in_waiting p (world s) = (Some k, w1) ->
  0 <= address < 256 ->
  getitem registers name = Ok addr ->
  0 <= value < 65536 ->
  exists frame : bytes,
    assemble address "single_write" (RegName name) (DataInt value)
      = Ok (frame, frame) /\
    length frame = 8%nat /\
    (forall w2 w3 : World,
       serial_write p frame w1 = (Ok (), w2) ->
       serial_read p 8 w2 = (Ok frame, w3) ->
       exists s' : session World Port,
         send_command address "single_write" (RegName name) (DataInt value) s
           = (Ok (true,
                  <["registers" := VStr name]>
                    (<["data" := VInt value]>
                      (<["mode" := VStr "single_write"]>
                        (<["address" := VInt address]> ∅)))), s') /\
         port s' = Some p /\
         world s' = w3 /\
         trace s' = trace s ++ [EvProbe p; EvWrite p frame; EvRead p 8]).
Proof.
  intros Hp Hw Ha Hname Hv.
  destruct (getitem_registers_inv _ _ Hname) as (i & Hidx & _ & -> & _).
  destruct (get_crc_two [to_byte address; x06; x00; to_byte (Z.of_nat i);
                         to_byte (value / 256); to_byte value])
    as (lo & hi & Hcrc).
  pose proof (assemble_single_write address name i value lo hi Ha Hidx Hv Hcrc)
    as Hasm.
  set (frame := [to_byte address; x06; x00; to_byte (Z.of_nat i);
                 to_byte (value / 256); to_byte value; lo; hi]) in *.
  exists frame. split; [exact Hasm|]. split; [reflexivity|].
  intros w2 w3 Hwrite Hecho. eexists. split.
  { unfold send_command, send_command_with.
    rewrite (M_bind_Ok _ _ s (frame, frame) s)
      by (rewrite lift_run, Hasm; reflexivity).
    cbv beta iota.
    rewrite (M_bind_Ok _ _ _ _ _
               (send_live s p k w1 w2 w3 frame frame (length frame)
                  Hp Hw Hwrite Hecho)).
    rewrite lift_run.
    unfold validate_with.
    rewrite (crc_matches_app
               [to_byte address; x06; x00; to_byte (Z.of_nat i);
                to_byte (value / 256); to_byte value] lo hi Hcrc
             : crc_matches frame = Ok true).
    result_simpl. unfold frame.
    rewrite (parse_single_write _ _ name i value lo hi Hidx Hv). result_simpl.
    rewrite Z_of_to_byte, Z.mod_small by lia. reflexivity. }
  repeat split.
Qed.

(** X23: a complete read.  On a port that answers the probe, when the
    device answers a read of [n] registers with its address, function code
    0x03, the byte count [2 * n], [n] values and the CRC of all that,
    [send_command] returns [True] with exactly those values as data and the
    names of the [n] registers from the starting register on (as many as
    the catalog still holds), after one probe, one write of the command and
    one read of [5 + 2 * n] bytes. *)
Theorem read_answered s (p : Port) (k : nat) (w1 : World)
    (address : Z) (start : string) (addr : bytes) (n : Z) (data : data_arg)
    (values : list Z) :
  port s = Some p ->
  serial_in_waiting p (world s) = (Some k, w1) ->
  0 <= address < 256 ->
  getitem registers start = Ok addr ->
  0 <= n <= 127 ->
  length values = Z.to_nat n ->
  Forall (fun v => 0 <= v < 65536) values ->
  exists (command expected_response : bytes) (lo hi : byte) (i : nat),
    assemble address "read" (RegSpan start n) data
      = Ok (command, expected_response) /\
    length expected_response = (5 + 2 * Z.to_nat n)%nat /\
    get_crc ([to_byte address; x03; to_byte (n * 2)] ++ pack_words values)
      = Ok [lo; hi] /\
    index register_order start = Ok i /\
    (forall w2 w3 : World,
       serial_write p command w1 = (Ok (), w2) ->
       serial_read p (length expected_response) w2
         = (Ok (([to_byte address; x03; to_byte (n * 2)] ++ pack_words values)
                  ++ [lo; hi]), w3) ->
       exists s' : session World Port,
         send_command address "read" (RegSpan start n) data s
           = (Ok (true,
                  <["data" := VInts values]>
                    (<["registers" := VStrs (take (Z.to_nat n) (drop i register_order))]>
                      (<["mode" := VStr "read"]>
                        (<["address" := VInt address]> ∅)))), s') /\
         port s' = Some p /\
         world s' = w3 /\
         trace s' = trace s ++ [EvProbe p; EvWrite p command;
                                EvRead p (length expected_response)]).
Proof.
  intros Hp Hw Ha Hname Hn Hlen Hvs.
  destruct (getitem_registers_inv _ _ Hname) as (i & Hidx & _ & -> & _).
  destruct (get_crc_two [to_byte address; x03; x00; to_byte (Z.of_nat i);
                         to_byte (n / 256); to_byte n]) as (lo1 & hi1 & Hcrc1).
  destruct (get_crc_two ([to_byte address; x03; to_byte (n * 2)]
                           ++ pack_words (replicate (Z.to_nat n) 0)))
    as (lo2 & hi2 & Hcrc2).
  destruct (get_crc_two ([to_byte address; x03; to_byte (n * 2)]
                           ++ pack_words values)) as (lo & hi & Hcrc).
  pose proof (assemble_read_span address start _ n data lo1 hi1 lo2 hi2
                Ha Hname Hn Hcrc1 Hcrc2) as Hasm.
  set (command := [to_byte address; x03; x00; to_byte (Z.of_nat i);
                   to_byte (n / 256); to_byte n; lo1; hi1]) in *.
  set (expected_response :=
         ([to_byte address; x03; to_byte (n * 2)]
            ++ pack_words (replicate (Z.to_nat n) 0)) ++ [lo2; hi2]) in *.
  exists command, expected_response, lo, hi, i.
  split; [exact Hasm|]. split.
  { unfold expected_response.
    rewrite !length_app, length_pack_words, length_replicate. cbn [length]. lia. }
  split; [exact Hcrc|]. split; [exact Hidx|].
  assert (Hcount : Z.to_nat (Z_of_byte (to_byte (n * 2)) `div` 2) = Z.to_nat n).
  { rewrite Z_of_to_byte, Z.mod_small by lia. now rewrite Z.div_mul by lia. }
  intros w2 w3 Hwrite Hanswer. eexists. split.
  { unfold send_command, send_command_with.
    rewrite (M_bind_Ok _ _ s (command, expected_response) s)
      by (rewrite lift_run, Hasm; reflexivity).
    cbv beta iota.
    rewrite (M_bind_Ok _ _ _ _ _
               (send_live s p k w1 w2 w3 command _ (length expected_response)
                  Hp Hw Hwrite Hanswer)).
    rewrite lift_run.
    unfold validate_with. rewrite (crc_matches_app _ lo hi Hcrc). result_simpl.
    unfold command.
    rewrite (parse_read _ _ _ (to_byte address) (to_byte (n * 2))
               (pack_words values) lo hi start i Hidx)
      by (rewrite Hcount, length_pack_words; lia).
    result_simpl. rewrite Hcount.
    rewrite (words_of_pack_words _ Hvs).
    rewrite <- Hlen, firstn_all.
    rewrite Z_of_to_byte, Z.mod_small by lia. reflexivity. }
  repeat split.
Qed.
End SessionFurther.

(** ** Limits and precision tables *)

(** X24: the precision table has one entry for the device address and one
    for every register of the catalog, in catalog order, each between 0 and
    3 decimals, so [precision[name]] never raises for a catalogued name;
    every name that has limits has a precision, its lower bound is not above
    its upper bound, and every address within the limits of ["ADDRESS"] is
    one that [byte_packer] packs. *)
Theorem limits_and_precision_cover_catalog :
  precision.*1 = "ADDRESS" :: register_order /\
  (forall name : string, name ∈ register_order ->
     exists d : Z, getitem precision name = Ok d /\ 0 <= d <= 3) /\
  Forall (fun item : string * (Z * Z) =>
            item.2.1 <= item.2.2 /\
            exists d : Z, getitem precision item.1 = Ok d) limits /\
  getitem limits "ADDRESS" = Ok (1, 255) /\
  (forall a : Z, 1 <= a <= 255 -> byte_packer.pack a = Ok [to_byte a]).
Proof.
  split; [reflexivity|]. split; [|split; [|split; [reflexivity|]]].
  - intros name Hin. unfold register_order in Hin.
    repeat (apply elem_of_cons in Hin as [->|Hin];
            [eexists; split; [reflexivity|lia]|]).
    now apply elem_of_nil in Hin.
  - unfold limits.
    repeat (apply Forall_cons_2;
            [split; [cbn; lia|eexists; reflexivity]|]).
    apply Forall_nil_2.
  - intros a Ha. unfold byte_packer.pack. now rewrite decide_True by lia.
Qed.

(** * Worked examples *)

(** The read of two registers from V-SET on, answered with 1234 and 500. *)
Example read_two_registers :
  assemble 1 "read" (RegSpan "V-SET" 2) DataNone
    = Ok ([x01; x03; x00; x00; x00; x02; xc4; x0b],
          [x01; x03; x04; x00; x00; x00; x00; xfa; x33]) /\
  validate "read" [x01; x03; x00; x00; x00; x02; xc4; x0b]
      [x01; x03; x04; x04; xd2; x01; xf4; x5b; x2d]
    = Ok (true,
          <["data" := VInts [1234; 500]]>
            (<["registers" := VStrs ["V-SET"; "I-SET"]]>
              (<["mode" := VStr "read"]> (<["address" := VInt 1]> ∅)))).
Proof. split; vm_compute; reflexivity. Qed.

(** A window of three registers from V-OUT on. *)
Example window_from_V_OUT :
  named_registers (RegSpan "V-OUT" 3) = Some (VStrs ["V-OUT"; "I-OUT"; "POWER"]).
Proof. reflexivity. Qed.

(** A CRC-valid response that bears function code 0x10 but stops after its
    header makes the parser raise. *)
Example multiple_write_short_reply :
  crc_matches [x01; x10; x01; xec] = Ok true /\
  validate "multiple_write"
      [x01; x10; x00; x00; x00; x01; x02; x00; x05; x66; x53]
      [x01; x10; x01; xec]
    = Raise struct_error.
Proof. split; vm_compute; reflexivity. Qed.

(** C1, as stated, fails for read: the command carries no data, and a
    response equal to the expected response, placeholders included, is parsed
    to the data [[0]]. *)
Lemma round_trip_read_counterexample :
  assemble 1 "read" (RegSpan "V-SET" 1) DataNone
    = Ok ([x01; x03; x00; x00; x00; x01; x84; x0a],
          [x01; x03; x02; x00; x00; xb8; x44]) /\
  validate "read" [x01; x03; x00; x00; x00; x01; x84; x0a]
      [x01; x03; x02; x00; x00; xb8; x44]
    = Ok (true,
          <["data" := VInts [0]]>
            (<["registers" := VStrs ["V-SET"]]>
              (<["mode" := VStr "read"]> (<["address" := VInt 1]> ∅)))) /\
  Some (VInts [0]) <> data_value DataNone.
Proof. split; [|split]; [vm_compute; reflexivity..|discriminate]. Qed.

(** C4, as stated, fails on a CRC-valid response that bears the function
    code of a read: the parser follows the response's function code, and the
    data [[9]] come from the response while the command's payload holds
    [[5]]. *)
Lemma multiple_write_read_reply_counterexample :
  assemble 1 "multiple_write" (RegSpan "V-SET" 1) (DataSeq [5])
    = Ok ([x01; x10; x00; x00; x00; x01; x02; x00; x05; x66; x53],
          [x01; x10; x00; x00; x00; x01; x01; xc9]) /\
  crc_matches [x01; x03; x02; x00; x09; x78; x42] = Ok true /\
  validate "multiple_write"
      [x01; x10; x00; x00; x00; x01; x02; x00; x05; x66; x53]
      [x01; x03; x02; x00; x09; x78; x42]
    = Ok (true,
          <["data" := VInts [9]]>
            (<["registers" := VStrs ["V-SET"]]>
              (<["mode" := VStr "read"]> (<["address" := VInt 1]> ∅)))) /\
  words_of (command_payload [x01; x10; x00; x00; x00; x01; x02; x00; x05; x66; x53])
    = [5] /\
  VInts [9] <> VInts [5].
Proof.
  split; [|split; [|split; [|split]]]; [vm_compute; reflexivity..|discriminate].
Qed.

(** Counterexample to C7 as stated: opening the port name ["\x00"] raises
    [ValueError], which [connect_port] does not catch; the port held before
    has been closed and forgotten by then.  A name that merely fails to open
    is reported as [False]. *)
Lemma connect_port_nul_name_counterexample :
  connect_port nul_name (plugged_session [])
    = (Raise ValueError,
       Session (Bench [] false) None [EvClose (); EvOpen nul_name 1]) /\
  connect_port "/dev/ttyUSB0" (plugged_session [])
    = (Ok false,
       Session (Bench [] false) None [EvClose (); EvOpen "/dev/ttyUSB0" 1]) /\
  connect_port "/dev/tnt0" (plugged_session [])
    = (Ok true,
       Session (Bench [] false) (Some ()) [EvClose (); EvOpen "/dev/tnt0" 1]).
Proof. repeat split. Qed.

(** A read sent to a device that has hung up: the probe answers, the command
    is written, and the exception of the read comes out of [send_command]. *)
Example read_from_hung_up_device :
  __send [x01; x03; x00; x00; x00; x01; x84; x0a] 7 hung_up_session
    = (Raise SerialException,
       Session HungUp (Some ())
         [EvProbe (); EvWrite () [x01; x03; x00; x00; x00; x01; x84; x0a];
          EvRead () 7]) /\
  send_command 1 "read" (RegSpan "V-SET" 1) DataNone hung_up_session
    = (Raise SerialException,
       Session HungUp (Some ())
         [EvProbe (); EvWrite () [x01; x03; x00; x00; x00; x01; x84; x0a];
          EvRead () 7]).
Proof. split; vm_compute; reflexivity. Qed.

(** * Instances of the theorems *)

Lemma round_trip_witness :
  (0 <= 1 < 256 /\ valid_command "read" (RegSpan "V-SET" 2) DataNone) /\
  exists command expected_response : bytes,
    assemble 1 "read" (RegSpan "V-SET" 2) DataNone
      = Ok (command, expected_response) /\
    forall response : bytes,
      matches_expected "read" expected_response response ->
      exists parsed : gmap string pyval,
        validate "read" command response = Ok (true, parsed) /\
        parsed !! "address" = Some (VInt 1) /\
        parsed !! "mode" = Some (VStr "read") /\
        parsed !! "registers" = named_registers (RegSpan "V-SET" 2) /\
        parsed !! "data" = round_trip_data "read" DataNone response.
Proof.
  assert (Hv : valid_command "read" (RegSpan "V-SET" 2) DataNone).
  { apply (valid_read "V-SET" 0 2 DataNone); [reflexivity|lia|simpl; lia]. }
  split; [split; [lia|exact Hv]|].
  apply (round_trip 1 "read" (RegSpan "V-SET" 2) DataNone); [lia|exact Hv].
Defined.

Lemma single_write_expected_is_command_witness :
  (0 <= 1 < 256 /\ getitem registers "V-SET" = Ok [x00; x00] /\
   0 <= 1234 < 65536) /\
  exists frame crc : bytes,
    assemble 1 "single_write" (RegName "V-SET") (DataInt 1234)
      = Ok (frame, frame) /\
    get_crc ([to_byte 1; x06] ++ [x00; x00] ++ [to_byte (1234 / 256); to_byte 1234])
      = Ok crc /\
    frame = [to_byte 1; x06] ++ [x00; x00]
              ++ [to_byte (1234 / 256); to_byte 1234] ++ crc /\
    length frame = 8%nat.
Proof.
  split; [split; [lia|split; [reflexivity|lia]]|].
  apply (single_write_expected_is_command 1 "V-SET" [x00; x00] 1234);
    [lia|reflexivity|lia].
Defined.

Lemma unrecognized_function_code_witness :
  (crc_matches [xff; xff] = Ok true /\ [xff; xff] !! 1%nat = Some xff /\
   xff <> x03 /\ xff <> x06 /\ xff <> x10) /\
  __parse_response [] [xff; xff] = Ok ∅ /\
  validate "read" [] [xff; xff] = Ok (true, ∅) /\
  (∅ : gmap string pyval) !! "registers" = None /\
  (∅ : gmap string pyval) !! "data" = None.
Proof.
  assert (Hcrc : crc_matches [xff; xff] = Ok true) by (vm_compute; reflexivity).
  split; [split; [exact Hcrc|split; [reflexivity|repeat split; discriminate]]|].
  apply (unrecognized_function_code "read" [] [xff; xff] xff);
    [exact Hcrc|reflexivity|discriminate..].
Defined.

Lemma multiple_write_data_from_command_witness :
  (getitem registers "V-SET" = Ok [x00; x00] /\ 0 <= 1 < 65536 /\
   (2 * Z.to_nat 1 <= length (command_payload
      [x01; x10; x00; x00; x00; x01; x02; x00; x05; x66; x53]))%nat /\
   crc_matches (multiple_write_reply x01 [x00; x00] 1 [x01; xc9]) = Ok true) /\
  exists i : nat,
    index register_order "V-SET" = Ok i /\
    validate "multiple_write"
        [x01; x10; x00; x00; x00; x01; x02; x00; x05; x66; x53]
        (multiple_write_reply x01 [x00; x00] 1 [x01; xc9])
      = Ok (true,
            <["data" := VInts (take (Z.to_nat 1) (words_of (command_payload
                 [x01; x10; x00; x00; x00; x01; x02; x00; x05; x66; x53])))]>
              (<["registers" := VStrs (take (Z.to_nat 1) (drop i register_order))]>
                (<["mode" := VStr "multiple_write"]>
                  (<["address" := VInt (Z_of_byte x01)]> ∅)))).
Proof.
  assert (Hlen : (2 * Z.to_nat 1 <= length (command_payload
      [x01; x10; x00; x00; x00; x01; x02; x00; x05; x66; x53]))%nat)
    by (vm_compute; lia).
  assert (Hcrc : crc_matches (multiple_write_reply x01 [x00; x00] 1 [x01; xc9])
                   = Ok true) by (vm_compute; reflexivity).
  split; [split; [reflexivity|split; [lia|split; [exact Hlen|exact Hcrc]]]|].
  apply (multiple_write_data_from_command
           [x01; x10; x00; x00; x00; x01; x02; x00; x05; x66; x53]
           x01 "V-SET" [x00; x00] 1 x01 xc9);
    [reflexivity|lia|exact Hlen|exact Hcrc].
Defined.

Lemma send_command_crc_mismatch_witness :
  (assemble 1 "read" (RegSpan "V-SET" 1) DataNone
     = Ok ([x01; x03; x00; x00; x00; x01; x84; x0a],
           [x01; x03; x02; x00; x00; xb8; x44]) /\
   __send [x01; x03; x00; x00; x00; x01; x84; x0a]
       (length [x01; x03; x02; x00; x00; xb8; x44])
       (plugged_session [x01; x03; x02; x00; x09; x00; x00])
     = (Ok [x01; x03; x02; x00; x09; x00; x00],
        Session (Bench [x01; x03; x02; x00; x09; x00; x00] false) (Some ())
          [EvProbe (); EvWrite () [x01; x03; x00; x00; x00; x01; x84; x0a];
           EvRead () 7]) /\
   get_crc (drop_last2 [x01; x03; x02; x00; x09; x00; x00]) = Ok [x78; x42] /\
   last2 [x01; x03; x02; x00; x09; x00; x00] <> [x78; x42]) /\
  send_command_with __parse_response 1 "read" (RegSpan "V-SET" 1) DataNone
      (plugged_session [x01; x03; x02; x00; x09; x00; x00])
    = (Ok (false, {["mode" := VStr "read"]}),
       Session (Bench [x01; x03; x02; x00; x09; x00; x00] false) (Some ())
         [EvProbe (); EvWrite () [x01; x03; x00; x00; x00; x01; x84; x0a];
          EvRead () 7]).
Proof.
  set (s := plugged_session [x01; x03; x02; x00; x09; x00; x00]).
  set (s' := Session (Bench [x01; x03; x02; x00; x09; x00; x00] false) (Some ())
         [EvProbe (); EvWrite () [x01; x03; x00; x00; x00; x01; x84; x0a];
          EvRead () 7]).
  assert (H1 : assemble 1 "read" (RegSpan "V-SET" 1) DataNone
     = Ok ([x01; x03; x00; x00; x00; x01; x84; x0a],
           [x01; x03; x02; x00; x00; xb8; x44])) by (vm_compute; reflexivity).
  assert (H2 : __send [x01; x03; x00; x00; x00; x01; x84; x0a]
       (length [x01; x03; x02; x00; x00; xb8; x44]) s
     = (Ok [x01; x03; x02; x00; x09; x00; x00], s')) by (vm_compute; reflexivity).
  assert (H3 : get_crc (drop_last2 [x01; x03; x02; x00; x09; x00; x00])
                 = Ok [x78; x42]) by (vm_compute; reflexivity).
  assert (H4 : last2 [x01; x03; x02; x00; x09; x00; x00] <> [x78; x42])
    by (vm_compute; discriminate).
  split; [repeat split; assumption|].
  apply (send_command_crc_mismatch __parse_response s s' 1 "read"
           (RegSpan "V-SET" 1) DataNone _ _ _ _ H1 H2 H3 H4).
Defined.

Lemma send_command_unknown_raises_witness :
  ("write" ∉ function.*1 \/ registers_key (RegName "V-SET") ∉ registers.*1) /\
  exists e : exn,
    send_command 1 "write" (RegName "V-SET") (DataInt 5) (plugged_session [])
      = (Raise e, plugged_session []) /\
    (0 <= 1 < 256 -> e = KeyError).
Proof.
  assert (H : "write" ∉ function.*1 \/ registers_key (RegName "V-SET") ∉ registers.*1).
  { left. apply (bool_decide_unpack _). vm_compute. reflexivity. }
  split; [exact H|].
  apply (send_command_unknown_raises (plugged_session []) 1 "write" (RegName "V-SET") (DataInt 5) H).
Defined.

Lemma probe_fault_disconnects_witness :
  (port unplugged_session = Some () /\
   serial_in_waiting () (world unplugged_session) = (None, Bench [] true)) /\
  exists s1 : session bench unit,
    is_port_alive unplugged_session = (Ok false, s1) /\
    port s1 = None /\
    trace s1 = trace unplugged_session ++ [EvProbe (); EvClose ()] /\
    send_all [([x01; x03; x00; x00; x00; x01; x84; x0a], 7%nat)] s1
      = (Ok (map (fun _ => [x00])
               [([x01; x03; x00; x00; x00; x01; x84; x0a], 7%nat)]), s1).
Proof.
  split; [split; reflexivity|].
  apply (probe_fault_disconnects unplugged_session () (Bench [] true)
           [([x01; x03; x00; x00; x00; x01; x84; x0a], 7%nat)]);
    reflexivity.
Defined.

(** * Instances of the further properties *)

Lemma get_crc_residue_zero_witness :
  get_crc [x01; x10] = Ok [x01; xec] /\
  get_crc ([x01; x10] ++ [x01; xec]) = Ok [x00; x00].
Proof.
  assert (H : get_crc [x01; x10] = Ok [x01; xec]) by (vm_compute; reflexivity).
  split; [exact H|].
  apply (get_crc_residue_zero [x01; x10] [x01; xec] H).
Defined.

Lemma single_byte_corruption_rejected_witness :
  (crc_matches ([x01] ++ x10 :: [x01; xec]) = Ok true /\ x10 <> x03) /\
  crc_matches ([x01] ++ x03 :: [x01; xec]) = Ok false.
Proof.
  assert (H1 : crc_matches ([x01] ++ x10 :: [x01; xec]) = Ok true)
    by (vm_compute; reflexivity).
  assert (H2 : x10 <> x03) by discriminate.
  split; [split; assumption|].
  apply (single_byte_corruption_rejected [x01] [x01; xec] x10 x03 H1 H2).
Defined.

Lemma short_response_rejected_witness :
  (length [x00] < 2)%nat /\
  crc_matches [x00] = Ok false /\
  validate_with __parse_response "read" [x01; x03; x00; x00; x00; x01; x84; x0a]
      [x00]
    = Ok (false, {["mode" := VStr "read"]}).
Proof.
  assert (H : (length [x00] < 2)%nat) by (simpl; lia).
  split; [exact H|].
  apply (short_response_rejected __parse_response "read"
           [x01; x03; x00; x00; x00; x01; x84; x0a] [x00] H).
Defined.

Lemma read_frames_well_formed_witness :
  (0 <= 1 < 256 /\ getitem registers "VERSION" = Ok [x00; x0c] /\ 0 <= 5 <= 127) /\
  exists command expected_response crc1 crc2 : bytes,
    assemble 1 "read" (RegSpan "VERSION" 5) DataNone
      = Ok (command, expected_response) /\
    command = [to_byte 1; x03] ++ [x00; x0c] ++ [to_byte (5 / 256); to_byte 5]
                ++ crc1 /\
    expected_response
      = [to_byte 1; x03; to_byte (5 * 2)]
          ++ pack_words (replicate (Z.to_nat 5) 0) ++ crc2 /\
    length command = 8%nat /\
    length expected_response = (5 + 2 * Z.to_nat 5)%nat /\
    crc_matches command = Ok true /\
    crc_matches expected_response = Ok true.
Proof.
  split; [split; [lia|split; [reflexivity|lia]]|].
  apply (read_frames_well_formed 1 "VERSION" [x00; x0c] 5 DataNone);
    [lia|reflexivity|lia].
Defined.

Lemma multiple_write_frames_well_formed_witness :
  (0 <= 1 < 256 /\ getitem registers "V-SET" = Ok [x00; x00] /\
   (length [1234; 500] <= 127)%nat /\
   Forall (fun v => 0 <= v < 65536) [1234; 500]) /\
  exists command expected_response crc1 crc2 : bytes,
    assemble 1 "multiple_write" (RegSpan "V-SET" (Z.of_nat (length [1234; 500])))
        (DataSeq [1234; 500])
      = Ok (command, expected_response) /\
    command = [to_byte 1; x10] ++ [x00; x00]
                ++ [to_byte (Z.of_nat (length [1234; 500]) / 256);
                    to_byte (Z.of_nat (length [1234; 500]));
                    to_byte (2 * Z.of_nat (length [1234; 500]))]
                ++ pack_words [1234; 500] ++ crc1 /\
    expected_response = take 6 command ++ crc2 /\
    length command = (9 + 2 * length [1234; 500])%nat /\
    length expected_response = 8%nat /\
    command_payload command = pack_words [1234; 500] /\
    crc_matches command = Ok true /\
    crc_matches expected_response = Ok true.
Proof.
  assert (Hvs : Forall (fun v => 0 <= v < 65536) [1234; 500]).
  { repeat (apply Forall_cons_2; [lia|]). apply Forall_nil_2. }
  assert (Hlen : (length [1234; 500] <= 127)%nat) by (simpl; lia).
  split; [split; [lia|split; [reflexivity|split; [exact Hlen|exact Hvs]]]|].
  apply (multiple_write_frames_well_formed 1 "V-SET" [x00; x00] [1234; 500]);
    [lia|reflexivity|exact Hlen|exact Hvs].
Defined.

Lemma span_count_out_of_range_witness :
  (0 <= 1 < 256 /\ ("read" = "read" \/ "read" = "multiple_write") /\
   getitem registers "V-SET" = Ok [x00; x00] /\ ~ 0 <= 128 <= 127) /\
  assemble 1 "read" (RegSpan "V-SET" 128) DataNone = Raise struct_error.
Proof.
  split; [split; [lia|split; [left; reflexivity|split; [reflexivity|lia]]]|].
  apply (span_count_out_of_range 1 "read" "V-SET" [x00; x00] 128 DataNone);
    [lia|left; reflexivity|reflexivity|lia].
Defined.

Lemma multiple_write_surplus_ignored_witness :
  (Z.to_nat 1 <= length [5])%nat /\
  assemble 1 "multiple_write" (RegSpan "V-SET" 1) (DataSeq ([5] ++ [6; 7]))
    = assemble 1 "multiple_write" (RegSpan "V-SET" 1) (DataSeq [5]).
Proof.
  assert (H : (Z.to_nat 1 <= length [5])%nat) by (simpl; lia).
  split; [exact H|].
  apply (multiple_write_surplus_ignored 1 "V-SET" 1 [5] [6; 7] H).
Defined.

Lemma multiple_write_too_few_values_witness :
  (0 <= 1 < 256 /\ getitem registers "V-SET" = Ok [x00; x00] /\ 0 <= 2 <= 127 /\
   Forall (fun v => 0 <= v < 65536) [5] /\ (length [5] < Z.to_nat 2)%nat) /\
  assemble 1 "multiple_write" (RegSpan "V-SET" 2) (DataSeq [5]) = Raise IndexError.
Proof.
  assert (Hvs : Forall (fun v => 0 <= v < 65536) [5]).
  { apply Forall_cons_2; [lia|apply Forall_nil_2]. }
  assert (Hlen : (length [5] < Z.to_nat 2)%nat) by (simpl; lia).
  split; [split; [lia|split; [reflexivity|split; [lia|split; assumption]]]|].
  apply (multiple_write_too_few_values 1 "V-SET" [x00; x00] 2 [5]);
    [lia|reflexivity|lia|exact Hvs|exact Hlen].
Defined.

Lemma multiple_write_data_not_sequence_witness :
  (0 <= 1 < 256 /\ getitem registers "V-SET" = Ok [x00; x00] /\ 1 <= 1 <= 127 /\
   (forall vs : list Z, DataNone <> DataSeq vs)) /\
  assemble 1 "multiple_write" (RegSpan "V-SET" 1) DataNone = Raise TypeError.
Proof.
  assert (H : forall vs : list Z, DataNone <> DataSeq vs) by discriminate.
  split; [split; [lia|split; [reflexivity|split; [lia|exact H]]]|].
  apply (multiple_write_data_not_sequence 1 "V-SET" [x00; x00] 1 DataNone);
    [lia|reflexivity|lia|exact H].
Defined.

Lemma single_write_value_refused_witness :
  (0 <= 1 < 256 /\ getitem registers "V-SET" = Ok [x00; x00] /\
   (forall v : Z, DataInt 65536 = DataInt v -> ~ 0 <= v < 65536)) /\
  assemble 1 "single_write" (RegName "V-SET") (DataInt 65536) = Raise struct_error.
Proof.
  assert (H : forall v : Z, DataInt 65536 = DataInt v -> ~ 0 <= v < 65536)
    by (intros v [= <-]; lia).
  split; [split; [lia|split; [reflexivity|exact H]]|].
  apply (single_write_value_refused 1 "V-SET" [x00; x00] (DataInt 65536));
    [lia|reflexivity|exact H].
Defined.

Lemma read_reply_decoded_witness :
  (getitem registers "MODEL" = Ok [x00; x0b] /\
   crc_matches (([x01; x03; x04] ++ [x04; xd2; x01; xf4]) ++ [x5b; x2d]) = Ok true /\
   (2 * Z.to_nat (Z_of_byte x04 `div` 2) <= length [x04; xd2; x01; xf4])%nat) /\
  exists i : nat,
    index register_order "MODEL" = Ok i /\
    validate "single_write" ([x01; x03] ++ [x00; x0b] ++ [x00; x02; xc4; x0b])
        (([x01; x03; x04] ++ [x04; xd2; x01; xf4]) ++ [x5b; x2d])
      = Ok (true,
            <["data" := VInts (take (Z.to_nat (Z_of_byte x04 `div` 2))
                                 (words_of [x04; xd2; x01; xf4]))]>
              (<["registers" := VStrs (take (Z.to_nat (Z_of_byte x04 `div` 2))
                                         (drop i register_order))]>
                (<["mode" := VStr "read"]>
                  (<["address" := VInt (Z_of_byte x01)]> ∅)))) /\
    length (take (Z.to_nat (Z_of_byte x04 `div` 2)) (words_of [x04; xd2; x01; xf4]))
      = Z.to_nat (Z_of_byte x04 `div` 2) /\
    length (take (Z.to_nat (Z_of_byte x04 `div` 2)) (drop i register_order))
      = (Z.to_nat (Z_of_byte x04 `div` 2) `min` (13 - i))%nat.
Proof.
  assert (Hcrc : crc_matches (([x01; x03; x04] ++ [x04; xd2; x01; xf4])
                                ++ [x5b; x2d]) = Ok true)
    by (vm_compute; reflexivity).
  assert (Hlen : (2 * Z.to_nat (Z_of_byte x04 `div` 2)
                    <= length [x04; xd2; x01; xf4])%nat) by (vm_compute; lia).
  split; [split; [reflexivity|split; [exact Hcrc|exact Hlen]]|].
  apply (read_reply_decoded "single_write" x01 x03 [x00; x02; xc4; x0b]
           "MODEL" [x00; x0b] x01 x04 [x04; xd2; x01; xf4] x5b x2d);
    [reflexivity|exact Hcrc|exact Hlen].
Defined.

Lemma read_reply_short_payload_witness :
  (getitem registers "V-SET" = Ok [x00; x00] /\
   crc_matches (([x01; x03; x04] ++ [x00; x09]) ++ [x98; x43]) = Ok true /\
   (length [x00; x09] < 2 * Z.to_nat (Z_of_byte x04 `div` 2))%nat) /\
  validate "read" ([x01; x03] ++ [x00; x00] ++ [x00; x02; xc4; x0b])
      (([x01; x03; x04] ++ [x00; x09]) ++ [x98; x43])
    = Raise struct_error.
Proof.
  assert (Hcrc : crc_matches (([x01; x03; x04] ++ [x00; x09]) ++ [x98; x43])
                   = Ok true) by (vm_compute; reflexivity).
  assert (Hlen : (length [x00; x09] < 2 * Z.to_nat (Z_of_byte x04 `div` 2))%nat)
    by (vm_compute; lia).
  split; [split; [reflexivity|split; [exact Hcrc|exact Hlen]]|].
  apply (read_reply_short_payload "read" x01 x03 [x00; x02; xc4; x0b]
           "V-SET" [x00; x00] x01 x04 [x00; x09] x98 x43);
    [reflexivity|exact Hcrc|exact Hlen].
Defined.

Lemma multiple_write_reply_unknown_register_witness :
  (([x00; x0d] ∉ registers.*2) /\
   crc_matches [x01; x10; x00; x0d; x00; x01; x90; x0a] = Ok true) /\
  validate "multiple_write"
      [x01; x10; x00; x00; x00; x01; x02; x00; x05; x66; x53]
      [x01; x10; x00; x0d; x00; x01; x90; x0a]
    = Raise ValueError.
Proof.
  assert (Hr : [x00; x0d] ∉ registers.*2)
    by (apply (bool_decide_unpack _); vm_compute; reflexivity).
  assert (Hcrc : crc_matches [x01; x10; x00; x0d; x00; x01; x90; x0a] = Ok true)
    by (vm_compute; reflexivity).
  split; [split; assumption|].
  apply (multiple_write_reply_unknown_register "multiple_write"
           [x01; x10; x00; x00; x00; x01; x02; x00; x05; x66; x53]
           x01 x00 x0d x00 x01 x90 x0a Hr Hcrc).
Defined.


Lemma send_on_live_port_witness :
  (port (plugged_session [x01; x03; x02; x00; x09; x78; x42]) = Some () /\
   serial_in_waiting ()
       (world (plugged_session [x01; x03; x02; x00; x09; x78; x42]))
     = (Some 0%nat, Bench [x01; x03; x02; x00; x09; x78; x42] false)) /\
  __send [x01; x03; x00; x00; x00; x01; x84; x0a] 7
      (plugged_session [x01; x03; x02; x00; x09; x78; x42])
    = match serial_write () [x01; x03; x00; x00; x00; x01; x84; x0a]
              (Bench [x01; x03; x02; x00; x09; x78; x42] false) with
      | (Raise e, w2) =>
          (Raise e,
           Session w2 (Some ())
             (trace (plugged_session [x01; x03; x02; x00; x09; x78; x42])
                ++ [EvProbe ();
                    EvWrite () [x01; x03; x00; x00; x00; x01; x84; x0a]]))
      | (Ok _, w2) =>
          match serial_read () 7 w2 with
          | (Ok r, w3) =>
              (Ok r,
               Session w3 (Some ())
                 (trace (plugged_session [x01; x03; x02; x00; x09; x78; x42])
                    ++ [EvProbe ();
                        EvWrite () [x01; x03; x00; x00; x00; x01; x84; x0a];
                        EvRead () 7]))
          | (Raise e, w3) =>
              (Raise e,
               Session w3 (Some ())
                 (trace (plugged_session [x01; x03; x02; x00; x09; x78; x42])
                    ++ [EvProbe ();
                        EvWrite () [x01; x03; x00; x00; x00; x01; x84; x0a];
                        EvRead () 7]))
          end
      end.
Proof.
  split; [split; reflexivity|].
  apply (send_on_live_port (plugged_session [x01; x03; x02; x00; x09; x78; x42])
           () 0 (Bench [x01; x03; x02; x00; x09; x78; x42] false)
           [x01; x03; x00; x00; x00; x01; x84; x0a] 7);
    reflexivity.
Defined.

Lemma send_command_disconnected_witness :
  (port idle_session = None /\
   assemble 1 "read" (RegSpan "V-SET" 1) DataNone
     = Ok ([x01; x03; x00; x00; x00; x01; x84; x0a],
           [x01; x03; x02; x00; x00; xb8; x44])) /\
  send_command_with __parse_response 1 "read" (RegSpan "V-SET" 1) DataNone
      idle_session
    = (Ok (false, {["mode" := VStr "read"]}), idle_session).
Proof.
  assert (H : assemble 1 "read" (RegSpan "V-SET" 1) DataNone
     = Ok ([x01; x03; x00; x00; x00; x01; x84; x0a],
           [x01; x03; x02; x00; x00; xb8; x44])) by (vm_compute; reflexivity).
  split; [split; [reflexivity|exact H]|].
  apply (send_command_disconnected __parse_response idle_session 1 "read"
           (RegSpan "V-SET" 1) DataNone _ _ eq_refl H).
Defined.

Lemma send_command_assembly_error_witness :
  assemble 300 "read" (RegSpan "V-SET" 1) DataNone = Raise struct_error /\
  send_command_with __parse_response 300 "read" (RegSpan "V-SET" 1) DataNone
      (plugged_session [])
    = (Raise struct_error, plugged_session []).
Proof.
  assert (H : assemble 300 "read" (RegSpan "V-SET" 1) DataNone = Raise struct_error)
    by (vm_compute; reflexivity).
  split; [exact H|].
  apply (send_command_assembly_error __parse_response (plugged_session [])
           300 "read" (RegSpan "V-SET" 1) DataNone struct_error H).
Defined.

Lemma send_command_on_live_port_witness :
  (port hung_up_session = Some () /\
   serial_in_waiting () (world hung_up_session) = (Some 0%nat, HungUp) /\
   assemble 1 "read" (RegSpan "V-SET" 1) DataNone
     = Ok ([x01; x03; x00; x00; x00; x01; x84; x0a],
           [x01; x03; x02; x00; x00; xb8; x44])) /\
  send_command_with __parse_response 1 "read" (RegSpan "V-SET" 1) DataNone
      hung_up_session
    = match serial_write () [x01; x03; x00; x00; x00; x01; x84; x0a] HungUp with
      | (Raise e, w2) =>
          (Raise e,
           Session w2 (Some ())
             (trace hung_up_session
                ++ [EvProbe ();
                    EvWrite () [x01; x03; x00; x00; x00; x01; x84; x0a]]))
      | (Ok _, w2) =>
          match serial_read () (length [x01; x03; x02; x00; x00; xb8; x44]) w2 with
          | (Ok response, w3) =>
              (validate_with __parse_response "read"
                 [x01; x03; x00; x00; x00; x01; x84; x0a] response,
               Session w3 (Some ())
                 (trace hung_up_session
                    ++ [EvProbe ();
                        EvWrite () [x01; x03; x00; x00; x00; x01; x84; x0a];
                        EvRead () (length [x01; x03; x02; x00; x00; xb8; x44])]))
          | (Raise e, w3) =>
              (Raise e,
               Session w3 (Some ())
                 (trace hung_up_session
                    ++ [EvProbe ();
                        EvWrite () [x01; x03; x00; x00; x00; x01; x84; x0a];
                        EvRead () (length [x01; x03; x02; x00; x00; xb8; x44])]))
          end
      end.
Proof.
  assert (H : assemble 1 "read" (RegSpan "V-SET" 1) DataNone
     = Ok ([x01; x03; x00; x00; x00; x01; x84; x0a],
           [x01; x03; x02; x00; x00; xb8; x44])) by (vm_compute; reflexivity).
  split; [split; [reflexivity|split; [reflexivity|exact H]]|].
  apply (send_command_on_live_port __parse_response hung_up_session () 0 HungUp
           1 "read" (RegSpan "V-SET" 1) DataNone
           [x01; x03; x00; x00; x00; x01; x84; x0a]
           [x01; x03; x02; x00; x00; xb8; x44]);
    [reflexivity|reflexivity|exact H].
Defined.

Lemma single_write_acknowledged_witness :
  (port (plugged_session [x01; x06; x00; x00; x04; xd2; x0b; x57]) = Some () /\
   serial_in_waiting ()
       (world (plugged_session [x01; x06; x00; x00; x04; xd2; x0b; x57]))
     = (Some 0%nat, Bench [x01; x06; x00; x00; x04; xd2; x0b; x57] false) /\
   0 <= 1 < 256 /\ getitem registers "V-SET" = Ok [x00; x00] /\
   0 <= 1234 < 65536) /\
  exists frame : bytes,
    assemble 1 "single_write" (RegName "V-SET") (DataInt 1234)
      = Ok (frame, frame) /\
    length frame = 8%nat /\
    (forall w2 w3 : bench,
       serial_write () frame (Bench [x01; x06; x00; x00; x04; xd2; x0b; x57] false)
         = (Ok (), w2) ->
       serial_read () 8 w2 = (Ok frame, w3) ->
       exists s' : session bench unit,
         send_command 1 "single_write" (RegName "V-SET") (DataInt 1234)
             (plugged_session [x01; x06; x00; x00; x04; xd2; x0b; x57])
           = (Ok (true,
                  <["registers" := VStr "V-SET"]>
                    (<["data" := VInt 1234]>
                      (<["mode" := VStr "single_write"]>
                        (<["address" := VInt 1]> ∅)))), s') /\
         port s' = Some () /\
         world s' = w3 /\
         trace s' = trace (plugged_session [x01; x06; x00; x00; x04; xd2; x0b; x57])
                      ++ [EvProbe (); EvWrite () frame; EvRead () 8]).
Proof.
  split; [split; [reflexivity|split; [reflexivity|split; [lia|split; [reflexivity|lia]]]]|].
  apply (single_write_acknowledged
           (plugged_session [x01; x06; x00; x00; x04; xd2; x0b; x57]) () 0
           (Bench [x01; x06; x00; x00; x04; xd2; x0b; x57] false)
           1 "V-SET" [x00; x00] 1234);
    [reflexivity|reflexivity|lia|reflexivity|lia].
Defined.

Lemma read_answered_witness :
  (port (plugged_session [x01; x03; x04; x04; xd2; x01; xf4; x5b; x2d]) = Some () /\
   serial_in_waiting ()
       (world (plugged_session [x01; x03; x04; x04; xd2; x01; xf4; x5b; x2d]))
     = (Some 0%nat, Bench [x01; x03; x04; x04; xd2; x01; xf4; x5b; x2d] false) /\
   0 <= 1 < 256 /\ getitem registers "V-SET" = Ok [x00; x00] /\
   0 <= 2 <= 127 /\ length [1234; 500] = Z.to_nat 2 /\
   Forall (fun v => 0 <= v < 65536) [1234; 500]) /\
  exists (command expected_response : bytes) (lo hi : byte) (i : nat),
    assemble 1 "read" (RegSpan "V-SET" 2) DataNone
      = Ok (command, expected_response) /\
    length expected_response = (5 + 2 * Z.to_nat 2)%nat /\
    get_crc ([to_byte 1; x03; to_byte (2 * 2)] ++ pack_words [1234; 500])
      = Ok [lo; hi] /\
    index register_order "V-SET" = Ok i /\
    (forall w2 w3 : bench,
       serial_write () command
           (Bench [x01; x03; x04; x04; xd2; x01; xf4; x5b; x2d] false)
         = (Ok (), w2) ->
       serial_read () (length expected_response) w2
         = (Ok (([to_byte 1; x03; to_byte (2 * 2)] ++ pack_words [1234; 500])
                  ++ [lo; hi]), w3) ->
       exists s' : session bench unit,
         send_command 1 "read" (RegSpan "V-SET" 2) DataNone
             (plugged_session [x01; x03; x04; x04; xd2; x01; xf4; x5b; x2d])
           = (Ok (true,
                  <["data" := VInts [1234; 500]]>
                    (<["registers" := VStrs (take (Z.to_nat 2) (drop i register_order))]>
                      (<["mode" := VStr "read"]>
                        (<["address" := VInt 1]> ∅)))), s') /\
         port s' = Some () /\
         world s' = w3 /\
         trace s' = trace (plugged_session [x01; x03; x04; x04; xd2; x01; xf4; x5b; x2d])
                      ++ [EvProbe (); EvWrite () command;
                          EvRead () (length expected_response)]).
Proof.
  assert (Hvs : Forall (fun v => 0 <= v < 65536) [1234; 500]).
  { repeat (apply Forall_cons_2; [lia|]). apply Forall_nil_2. }
  split.
  { split; [reflexivity|]. split; [reflexivity|]. split; [lia|].
    split; [reflexivity|]. split; [lia|]. split; [reflexivity|exact Hvs]. }
  apply (read_answered
           (plugged_session [x01; x03; x04; x04; xd2; x01; xf4; x5b; x2d]) () 0
           (Bench [x01; x03; x04; x04; xd2; x01; xf4; x5b; x2d] false)
           1 "V-SET" [x00; x00] 2 DataNone [1234; 500]);
    [reflexivity|reflexivity|lia|reflexivity|lia|reflexivity|exact Hvs].
Defined.
